(** * Fais_VS: the FAISS-backed vector store of the RAG pipeline

    A shallow embedding of [rag_pipeline/src/vectorstores/faiss_vectorstore.py]
    (class [Fais_VS]) and the properties of its ingestion, retrieval and
    persistence methods.

    Conventions of the embedding:
    - a method that assigns attributes of [self] is a function
      [State -> State * Result A]: the state it returns is the instance as
      the Python call leaves it, also when the call raises;
    - a method that only reads [self] returns [Run A], the list of calls it
      made to its collaborators (embedder, FAISS search, reranker) together
      with its result or the exception it raised;
    - the collaborators that are not part of the class (the float32 scalars,
      FAISS' search and normalisation, the two serialisers, the reranker) are
      the fields of the class [Externals]. *)

From stdpp Require Import gmap strings list fin_maps pretty.

Local Open Scope Z_scope.

#[local] Set Warnings "-register-all".

(** ** Exceptions and results *)

Inductive PyExc :=
  | ValueError (msg : string)
  | TypeError (msg : string)
  | FileNotFoundError (msg : string)
  | IndexError (msg : string)
  | KeyError (msg : string)
  | AttributeError (msg : string)
  | AssertionError (msg : string)
  | OtherError (msg : string).

Inductive Result (A : Type) :=
  | Ok (a : A)
  | Raise (e : PyExc).
Arguments Ok {A} a.
Arguments Raise {A} e.

Definition result_bind {A B} (r : Result A) (f : A -> Result B) : Result B :=
  match r with
  | Ok a => f a
  | Raise e => Raise e
  end.

#[global] Instance result_ret : MRet Result := fun A a => Ok a.
#[global] Instance result_mbind : MBind Result := fun A B f r => result_bind r f.

(** ** Python call binding

    The two search helpers are declared [(self, query_embedding, top_k=5)].
    A call passes [query_embedding] positionally and the other arguments by
    keyword. Python binds the keywords before the body runs: a keyword that
    names no parameter, or one that names the parameter already bound
    positionally, raises [TypeError]. *)

Record Signature := {
  sig_name : string;
  sig_positional : string;          (* bound by the positional argument *)
  sig_keyword : string;             (* the remaining parameter *)
  sig_default : Z                   (* its default value *)
}.

Definition sig_search_with_docstore : Signature :=
  {| sig_name := "_search_with_docstore"; sig_positional := "query_embedding";
     sig_keyword := "top_k"; sig_default := 5 |}.

Definition sig_search_chunks : Signature :=
  {| sig_name := "_search_chunks"; sig_positional := "query_embedding";
     sig_keyword := "top_k"; sig_default := 5 |}.

Fixpoint bind_keywords (sg : Signature) (kwargs : list (string * Z))
    (bound : option Z) : Result Z :=
  match kwargs with
  | [] => Ok (default (sig_default sg) bound)
  | (kw, v) :: rest =>
      if String.eqb kw (sig_keyword sg) then bind_keywords sg rest (Some v)
      else if String.eqb kw (sig_positional sg) then
        Raise (TypeError (sig_name sg +:+ "() got multiple values for argument '"
                          +:+ kw +:+ "'"))
      else
        Raise (TypeError (sig_name sg +:+ "() got an unexpected keyword argument '"
                          +:+ kw +:+ "'"))
  end.

(** A call site: the helper it names and the keyword arguments it passes. *)
Record CallSite := {
  callee : Signature;
  kwargs : list (string * Z)
}.

Definition bind_call (c : CallSite) : Result Z :=
  bind_keywords (callee c) (kwargs c) None.

(** ** Python slicing [l[:k]] *)

Definition py_slice_to {A} (l : list A) (k : Z) : list A :=
  if 0 <=? k then take (Z.to_nat k) l
  else take (length l - Z.to_nat (- k))%nat l.

(** ** File names *)

Definition store_path (file_path : string) : string := "vectorstores/" +:+ file_path.
Definition index_file (file_path : string) : string := store_path file_path +:+ ".faiss".
Definition metadata_file (file_path : string) : string :=
  store_path file_path +:+ "_metadata.pkl".

Section Model.
Context {F : Type}.   (* the float32 scalars of numpy and FAISS *)

(** ** numpy arrays

    An array is its shape and its elements in row-major order. *)

Record ndarray := {
  shape : list nat;
  data : list F
}.

Definition ndim (a : ndarray) : nat := length (shape a).

Definition nd_size (a : ndarray) : nat := foldr Nat.mul 1%nat (shape a).

(** [a.reshape(1, -1)] *)
Definition reshape_row (a : ndarray) : ndarray :=
  {| shape := [1%nat; nd_size a]; data := data a |}.

(** [a.shape[i]] *)
Definition shape_at (a : ndarray) (i : nat) : Result nat :=
  match shape a !! i with
  | Some n => Ok n
  | None => Raise (IndexError "tuple index out of range")
  end.

(** [a[0]] *)
Definition nd_row0 (a : ndarray) : Result ndarray :=
  match shape a with
  | [] => Raise (IndexError "too many indices for array")
  | O :: _ => Raise (IndexError "index 0 is out of bounds for axis 0 with size 0")
  | S _ :: rest => Ok {| shape := rest; data := take (foldr Nat.mul 1%nat rest) (data a) |}
  end.

(** What an embedder hands back: a Python list (of numbers, of lists, of
    arrays), a numpy array, or a number. *)
Inductive ArrayLike :=
  | AList (items : list ArrayLike)
  | AArray (a : ndarray)
  | ANum (x : F).

(** [np.array(rows)] for a list whose items are already arrays: the items
    must agree on their shape. *)
Definition np_stack (arrs : list ndarray) : Result ndarray :=
  match arrs with
  | [] => Ok {| shape := [O]; data := [] |}
  | a0 :: _ =>
      if forallb (fun a => bool_decide (shape a = shape a0)) arrs
      then Ok {| shape := length arrs :: shape a0; data := concat (data <$> arrs) |}
      else Raise (ValueError "setting an array element with a sequence")
  end.

(** [np.array(o).astype("float32")] *)
Fixpoint np_array (o : ArrayLike) : Result ndarray :=
  match o with
  | AList items => mapM np_array items ≫= np_stack
  | AArray a => Ok a
  | ANum x => Ok {| shape := []; data := [x] |}
  end.

(** ** The FAISS flat index

    [faiss.IndexFlatIP(d)] keeps its dimension, the number of vectors added
    and the vectors themselves, flattened in insertion order. *)

Record FaissIndex := {
  idx_d : nat;
  ntotal : nat;
  xb : list F
}.

Definition IndexFlatIP (d : nat) : FaissIndex :=
  {| idx_d := d; ntotal := O; xb := [] |}.

(** [index.add(x)]: [n, d = x.shape; assert d == self.d], then the [n] rows
    are appended. *)
Definition faiss_add (idx : FaissIndex) (x : ndarray) : Result FaissIndex :=
  match shape x with
  | [n; d] =>
      if bool_decide (d = idx_d idx)
      then Ok {| idx_d := idx_d idx; ntotal := (ntotal idx + n)%nat; xb := xb idx ++ data x |}
      else Raise (AssertionError "d == self.d")
  | [] | [_] => Raise (ValueError "not enough values to unpack (expected 2)")
  | _ => Raise (ValueError "too many values to unpack (expected 2)")
  end.

(** ** Documents *)

Inductive PyVal :=
  | VFloat (x : F)
  | VInt (n : Z)
  | VBool (b : bool)
  | VStr (s : string).

Record Document := {
  page_content : string;
  metadata : gmap string PyVal
}.

(** The dictionary [_search_chunks] builds for one hit. *)
Record ChunkResult := {
  chunk_id : Z;
  text : string;
  distance : F;
  similarity : F
}.

(** ** The embedder

    [embed_query] is optional: the code asks [hasattr] for it. *)
Record Embedder := {
  batch_embed : list string -> Result ArrayLike;
  embed_query : option (string -> Result ArrayLike)
}.

(** A query is a string, or anything else, which is handed to [batch_embed]
    as it is. *)
Inductive Query :=
  | QStr (q : string)
  | QTexts (qs : list string).

(** ** The instance *)

Record State := {
  index : option FaissIndex;
  chunks_dict : option (gmap Z string);
  dimension : option nat;
  total_vectors : nat;
  index_type : string;
  embedder_model : option Embedder;
  enable_reranking : bool;
  docstore : option (gmap string Document);
  index_to_docstore_id : option (gmap Z string);
  documents : option (list Document)
}.

(** [Fais_VS.__init__] *)
Definition init (em : option Embedder) : State :=
  {| index := None; chunks_dict := None; dimension := None;
     total_vectors := O; index_type := "IndexFlatIP"; embedder_model := em;
     enable_reranking := true; docstore := None;
     index_to_docstore_id := None; documents := None |}.

Definition with_index (v : option FaissIndex) (s : State) : State :=
  {| index := v; chunks_dict := chunks_dict s; dimension := dimension s;
     total_vectors := total_vectors s; index_type := index_type s;
     embedder_model := embedder_model s; enable_reranking := enable_reranking s;
     docstore := docstore s; index_to_docstore_id := index_to_docstore_id s;
     documents := documents s |}.

Definition with_chunks_dict (v : option (gmap Z string)) (s : State) : State :=
  {| index := index s; chunks_dict := v; dimension := dimension s;
     total_vectors := total_vectors s; index_type := index_type s;
     embedder_model := embedder_model s; enable_reranking := enable_reranking s;
     docstore := docstore s; index_to_docstore_id := index_to_docstore_id s;
     documents := documents s |}.

Definition with_dimension (v : option nat) (s : State) : State :=
  {| index := index s; chunks_dict := chunks_dict s; dimension := v;
     total_vectors := total_vectors s; index_type := index_type s;
     embedder_model := embedder_model s; enable_reranking := enable_reranking s;
     docstore := docstore s; index_to_docstore_id := index_to_docstore_id s;
     documents := documents s |}.

Definition with_total_vectors (v : nat) (s : State) : State :=
  {| index := index s; chunks_dict := chunks_dict s; dimension := dimension s;
     total_vectors := v; index_type := index_type s;
     embedder_model := embedder_model s; enable_reranking := enable_reranking s;
     docstore := docstore s; index_to_docstore_id := index_to_docstore_id s;
     documents := documents s |}.

Definition with_index_type (v : string) (s : State) : State :=
  {| index := index s; chunks_dict := chunks_dict s; dimension := dimension s;
     total_vectors := total_vectors s; index_type := v;
     embedder_model := embedder_model s; enable_reranking := enable_reranking s;
     docstore := docstore s; index_to_docstore_id := index_to_docstore_id s;
     documents := documents s |}.

Definition with_embedder_model (v : option Embedder) (s : State) : State :=
  {| index := index s; chunks_dict := chunks_dict s; dimension := dimension s;
     total_vectors := total_vectors s; index_type := index_type s;
     embedder_model := v; enable_reranking := enable_reranking s;
     docstore := docstore s; index_to_docstore_id := index_to_docstore_id s;
     documents := documents s |}.

Definition with_docstore (v : option (gmap string Document)) (s : State) : State :=
  {| index := index s; chunks_dict := chunks_dict s; dimension := dimension s;
     total_vectors := total_vectors s; index_type := index_type s;
     embedder_model := embedder_model s; enable_reranking := enable_reranking s;
     docstore := v; index_to_docstore_id := index_to_docstore_id s;
     documents := documents s |}.

Definition with_index_to_docstore_id (v : option (gmap Z string)) (s : State) : State :=
  {| index := index s; chunks_dict := chunks_dict s; dimension := dimension s;
     total_vectors := total_vectors s; index_type := index_type s;
     embedder_model := embedder_model s; enable_reranking := enable_reranking s;
     docstore := docstore s; index_to_docstore_id := v;
     documents := documents s |}.

Definition with_documents (v : option (list Document)) (s : State) : State :=
  {| index := index s; chunks_dict := chunks_dict s; dimension := dimension s;
     total_vectors := total_vectors s; index_type := index_type s;
     embedder_model := embedder_model s; enable_reranking := enable_reranking s;
     docstore := docstore s; index_to_docstore_id := index_to_docstore_id s;
     documents := v |}.

(** ** Methods that assign attributes of [self] *)

Definition Method (A : Type) : Type := State -> State * Result A.

Definition method_ret {A} (a : A) : Method A := fun s => (s, Ok a).

Definition method_bind {A B} (m : Method A) (f : A -> Method B) : Method B :=
  fun s =>
    match m s with
    | (s', Ok a) => f a s'
    | (s', Raise e) => (s', Raise e)
    end.

Definition self : Method State := fun s => (s, Ok s).
Definition assign (upd : State -> State) : Method unit := fun s => (upd s, Ok tt).
Definition raise {A} (e : PyExc) : Method A := fun s => (s, Raise e).
Definition lift {A} (r : Result A) : Method A := fun s => (s, r).

#[global] Instance method_mret : MRet Method := @method_ret.
#[global] Instance method_mbind : MBind Method := fun A B f m => method_bind m f.

(** A Python dict built by a comprehension: later items overwrite earlier
    ones. *)
Definition py_dict `{Countable K} {V} (items : list (K * V)) : gmap K V :=
  foldl (fun m kv => <[kv.1 := kv.2]> m) ∅ items.

(** [{i: x for i, x in enumerate(l)}] *)
Definition enumerate_dict {V} (l : list V) : gmap Z V :=
  py_dict (imap (fun i x => (Z.of_nat i, x)) l).

(** [str(i)] on a non-negative integer *)
Definition str (i : nat) : string := pretty i.

(** [set_embedder_model] *)
Definition set_embedder_model (em : Embedder) : Method unit :=
  assign (with_embedder_model (Some em)).

(** [create_vector_store]: the legacy, chunk-mode build. *)
Definition create_vector_store (docs : list Document) (em_arg : option Embedder)
    : Method unit :=
  (match em_arg with
   | Some em => assign (with_embedder_model (Some em))
   | None => mret tt
   end);;
  s ← self;
  match embedder_model s with
  | None => raise (ValueError "Embedder model is required")
  | Some em =>
      let texts := page_content <$> docs in
      out ← lift (batch_embed em texts);
      arr ← lift (np_array out);
      let embeddings := if bool_decide (ndim arr = 1%nat) then reshape_row arr else arr in
      d ← lift (shape_at embeddings 1);
      assign (with_dimension (Some d));;
      assign (with_index (Some (IndexFlatIP d)));;
      idx ← lift (faiss_add (IndexFlatIP d) embeddings);
      assign (with_index (Some idx));;
      assign (with_chunks_dict (Some (enumerate_dict texts)));;
      assign (with_total_vectors (ntotal idx))
  end.

(** ** What is pickled next to the index *)

Record Metadata := {
  md_chunks_dict : option (gmap Z string);
  md_dimension : option nat;
  md_total_vectors : nat;
  md_index_type : string;
  md_docstore : option (gmap string Document);
  md_index_to_docstore_id : option (gmap Z string);
  md_documents : option (list Document);
  md_enable_reranking : bool
}.

(** ** The collaborators outside the class

    [faiss_search idx q k] stands for [idx.search(q, k)] and gives row 0 of
    the two arrays FAISS returns, distances and row ids ([-1] where there is
    no hit). [fvec_renorm_L2 d n xs] is the in-place L2 normalisation of [n]
    rows of length [d]. A [Blob] is the content of a file. *)

Class Externals := {
  Blob : Type;
  faiss_search : FaissIndex -> ndarray -> Z -> Result (list F * list Z);
  fvec_renorm_L2 : nat -> nat -> list F -> list F;
  write_index : FaissIndex -> Blob;
  read_index : Blob -> Result FaissIndex;
  pickle_dump : Metadata -> Blob;
  pickle_load : Blob -> Result Metadata;
  rerank_chunks : Query -> list Document -> Result (list Document)
}.

Context `{X : Externals}.

(** [faiss.normalize_L2(x)]: the rows are rescaled in place, the shape stays. *)
Definition normalize_L2 (x : ndarray) : ndarray :=
  {| shape := shape x;
     data := fvec_renorm_L2 (default O (shape x !! 1%nat)) (default O (shape x !! O)) (data x) |}.

(** [create_vectorstore]: the enhanced build, from documents with metadata. *)
Definition create_vectorstore (docs : list Document) (normalize_embeddings : bool)
    : Method unit :=
  s ← self;
  match embedder_model s with
  | None =>
      raise (ValueError
        "Embedder model is required. Set it during initialization or call set_embedder_model()")
  | Some em =>
      let texts := page_content <$> docs in
      out ← lift (batch_embed em texts);
      arr ← lift (np_array out);
      let embeddings := if bool_decide (ndim arr = 1%nat) then reshape_row arr else arr in
      d ← lift (shape_at embeddings 1);
      assign (with_dimension (Some d));;
      assign (with_index (Some (IndexFlatIP d)));;
      let embeddings := if normalize_embeddings then normalize_L2 embeddings else embeddings in
      idx ← lift (faiss_add (IndexFlatIP d) embeddings);
      assign (with_index (Some idx));;
      assign (with_documents (Some docs));;
      assign (with_docstore (Some (py_dict (imap (fun i doc => (str i, doc)) docs))));;
      assign (with_index_to_docstore_id
                (Some (py_dict ((fun i => (Z.of_nat i, str i)) <$> seq 0 (length docs)))));;
      assign (with_chunks_dict (Some (enumerate_dict (page_content <$> docs))));;
      assign (with_total_vectors (ntotal idx))
  end.

(** ** Methods that only read [self] *)

Inductive Event :=
  | EmbedQuery (q : string)
  | BatchEmbed (texts : list string)
  | IndexSearch (q : ndarray) (k : Z)
  | Rerank (q : Query) (candidates : list Document).

Definition Run (A : Type) : Type := list Event * Result A.

Definition run_ret {A} (a : A) : Run A := ([], Ok a).

Definition run_bind {A B} (m : Run A) (f : A -> Run B) : Run B :=
  match m with
  | (t, Ok a) => let (t', r) := f a in (t ++ t', r)
  | (t, Raise e) => (t, Raise e)
  end.

Definition tell (e : Event) : Run unit := ([e], Ok tt).
Definition run_lift {A} (r : Result A) : Run A := ([], r).

#[global] Instance run_mret : MRet Run := @run_ret.
#[global] Instance run_mbind : MBind Run := fun A B f m => run_bind m f.

Definition trace {A} (m : Run A) : list Event := m.1.
Definition outcome {A} (m : Run A) : Result A := m.2.

(** The first step of [get_relevant_documents]: the query embedding. *)
Definition embed (s : State) (query : Query) : Run ArrayLike :=
  match embedder_model s with
  | None => run_lift (Raise (AttributeError "'NoneType' object has no attribute 'batch_embed'"))
  | Some em =>
      match query with
      | QStr q =>
          match embed_query em with
          | Some embed_one => tell (EmbedQuery q);; run_lift (embed_one q)
          | None =>
              tell (BatchEmbed [q]);;
              out ← run_lift (batch_embed em [q]);
              match out with
              | AList (first :: _) => mret first
              | AArray a =>
                  if bool_decide (1 < ndim a)%nat
                  then row ← run_lift (nd_row0 a); mret (AArray row)
                  else mret out
              | _ => mret out
              end
          end
      | QTexts qs => tell (BatchEmbed qs);; run_lift (batch_embed em qs)
      end
  end.

(** The head of both search helpers: conversion to float32 and reshaping to
    one row when the array is not two-dimensional. *)
Definition shape_query (query_embedding : ArrayLike) : Result ndarray :=
  a ← np_array query_embedding;
  Ok (if bool_decide (ndim a = 1%nat) then reshape_row a
      else if bool_decide (2 < ndim a)%nat then reshape_row a
      else a).

Definition show_dimension (d : option nat) : string :=
  match d with
  | Some n => pretty n
  | None => "None"
  end.

(** [if query_embedding.shape[1] != self.dimension: raise ValueError(...)] *)
Definition check_dimension (s : State) (q : ndarray) : Result unit :=
  n ← shape_at q 1;
  if bool_decide (Some n = dimension s) then Ok tt
  else Raise (ValueError ("Query embedding dimension " +:+ pretty n +:+
                          " doesn't match index dimension " +:+
                          show_dimension (dimension s))).

(** [self.index.search(query_embedding, top_k)] *)
Definition index_search (s : State) (q : ndarray) (k : Z) : Run (list F * list Z) :=
  match index s with
  | None => run_lift (Raise (AttributeError "'NoneType' object has no attribute 'search'"))
  | Some idx => tell (IndexSearch q k);; run_lift (faiss_search idx q k)
  end.

(** [row[i]] on a row of a FAISS result *)
Definition item {A} (row : list A) (i : nat) : Result A :=
  match row !! i with
  | Some x => Ok x
  | None => Raise (IndexError "index is out of bounds")
  end.

(** [x in d] and [len(d)] raise [TypeError] on [None]. *)
Definition container {A} (d : option A) : Result A :=
  match d with
  | Some m => Ok m
  | None => Raise (TypeError "argument of type 'NoneType'")
  end.

(** The body of the result loop of [_search_with_docstore], for position
    [i]: the document appended, if any. *)
Definition docstore_hit (s : State) (distances : list F) (indices : list Z) (i : nat)
    : Result (option Document) :=
  faiss_idx ← item indices i;
  if bool_decide (faiss_idx ≠ -1) then
    ids ← container (index_to_docstore_id s);
    match ids !! faiss_idx with
    | None => Ok None
    | Some docstore_id =>
        ds ← container (docstore s);
        match ds !! docstore_id with
        | None => Ok None
        | Some doc =>
            sim ← item distances i;
            let enhanced_metadata :=
              <["retrieval_index" := VInt faiss_idx]>
                (<["similarity" := VFloat sim]> (metadata doc)) in
            Ok (Some {| page_content := page_content doc; metadata := enhanced_metadata |})
        end
    end
  else Ok None.

(** [_search_with_docstore] *)
Definition _search_with_docstore (s : State) (query_embedding : ArrayLike) (top_k : Z)
    : Run (list Document) :=
  q ← run_lift (shape_query query_embedding);
  run_lift (check_dimension s q);;
  '(distances, indices) ← index_search s q top_k;
  hits ← run_lift (mapM (docstore_hit s distances indices) (seq 0 (Z.to_nat top_k)));
  mret (omap id hits).

(** The body of the result loop of [_search_chunks], for position [i]. *)
Definition chunk_hit (s : State) (distances : list F) (indices : list Z) (i : nat)
    : Result (option ChunkResult) :=
  faiss_idx ← item indices i;
  if bool_decide (faiss_idx ≠ -1) then
    chunks ← container (chunks_dict s);
    if bool_decide (faiss_idx < Z.of_nat (size chunks)) then
      dist ← item distances i;
      match chunks !! faiss_idx with
      | None => Raise (KeyError (pretty faiss_idx))
      | Some txt =>
          Ok (Some {| chunk_id := faiss_idx; text := txt; distance := dist;
                      similarity := dist |})
      end
    else Ok None
  else Ok None.

(** [_search_chunks] *)
Definition _search_chunks (s : State) (query_embedding : ArrayLike) (top_k : Z)
    : Run (list ChunkResult) :=
  q ← run_lift (shape_query query_embedding);
  run_lift (check_dimension s q);;
  '(distances, indices) ← index_search s q top_k;
  hits ← run_lift (mapM (chunk_hit s distances indices) (seq 0 (Z.to_nat top_k)));
  mret (omap id hits).

(** The two calls [get_relevant_documents] makes to the search helpers:
    [self._search_with_docstore(query_embedding, initial_k=5)] and
    [self._search_chunks(query_embedding, initial_k=5)]. *)
Definition call_search_with_docstore : CallSite :=
  {| callee := sig_search_with_docstore; kwargs := [("initial_k", 5)] |}.

Definition call_search_chunks : CallSite :=
  {| callee := sig_search_chunks; kwargs := [("initial_k", 5)] |}.

(** The call [get_relevant_documents] makes on the instance [s]. *)
Definition initial_search_call (s : State) : CallSite :=
  match docstore s with
  | Some _ => call_search_with_docstore
  | None => call_search_chunks
  end.

(** [Document(page_content=res['text'], metadata={"similarity": res['similarity']})] *)
Definition chunk_document (res : ChunkResult) : Document :=
  {| page_content := text res;
     metadata := {["similarity" := VFloat (similarity res)]} |}.

(** [if doc.metadata: doc.metadata["reranked"] = True] *)
Definition tag_reranked (doc : Document) : Document :=
  if bool_decide (metadata doc = ∅) then doc
  else {| page_content := page_content doc;
          metadata := <["reranked" := VBool true]> (metadata doc) |}.

(** The initial vector search of [get_relevant_documents]: the keywords of
    the call are bound first, then the helper runs. *)
Definition initial_search (s : State) (query_embedding : ArrayLike) : Run (list Document) :=
  top_k ← run_lift (bind_call (initial_search_call s));
  match docstore s with
  | Some _ => _search_with_docstore s query_embedding top_k
  | None =>
      res ← _search_chunks s query_embedding top_k;
      mret (chunk_document <$> res)
  end.

(** [get_relevant_documents] *)
Definition get_relevant_documents (s : State) (query : Query) (top_k : Z)
    : Run (list Document) :=
  query_embedding ← embed s query;
  candidates ← initial_search s query_embedding;
  tell (Rerank query candidates);;
  candidates ← run_lift (rerank_chunks query candidates);
  let candidates := tag_reranked <$> candidates in
  mret (py_slice_to candidates top_k).

(** ** The method a call reaches

    [self._search_chunks(...)] runs the method the instance has under that
    name: the parameters that method declares are bound from the arguments
    of the call, then its body runs. A [SearchMethod] is such a method, and
    [own_search_with_docstore] and [own_search_chunks] are the two the class
    defines. [initial_search_on] and [get_relevant_documents_on] are the
    initial search and the retrieval with the two methods left open; the
    keyword arguments are those of the two calls above. *)

Record SearchMethod (A : Type) := {
  method_sig : Signature;
  method_body : State -> ArrayLike -> Z -> Run A
}.
Arguments method_sig {A} _.
Arguments method_body {A} _.

Definition own_search_with_docstore : SearchMethod (list Document) :=
  {| method_sig := sig_search_with_docstore; method_body := _search_with_docstore |}.

Definition own_search_chunks : SearchMethod (list ChunkResult) :=
  {| method_sig := sig_search_chunks; method_body := _search_chunks |}.

Definition invoke {A} (m : SearchMethod A) (keywords : list (string * Z))
    (s : State) (query_embedding : ArrayLike) : Run A :=
  top_k ← run_lift (bind_call {| callee := method_sig m; kwargs := keywords |});
  method_body m s query_embedding top_k.

Definition initial_search_on (by_docstore : SearchMethod (list Document))
    (by_chunks : SearchMethod (list ChunkResult))
    (s : State) (query_embedding : ArrayLike) : Run (list Document) :=
  match docstore s with
  | Some _ => invoke by_docstore (kwargs call_search_with_docstore) s query_embedding
  | None =>
      res ← invoke by_chunks (kwargs call_search_chunks) s query_embedding;
      mret (chunk_document <$> res)
  end.

Definition get_relevant_documents_on (by_docstore : SearchMethod (list Document))
    (by_chunks : SearchMethod (list ChunkResult))
    (s : State) (query : Query) (top_k : Z) : Run (list Document) :=
  query_embedding ← embed s query;
  candidates ← initial_search_on by_docstore by_chunks s query_embedding;
  tell (Rerank query candidates);;
  candidates ← run_lift (rerank_chunks query candidates);
  let candidates := tag_reranked <$> candidates in
  mret (py_slice_to candidates top_k).

(** ** Persistence

    The file system is a finite map from file names to contents. A file is
    known by its name as it is written: two spellings of one path are two
    names here. *)

Definition metadata_of (s : State) : Metadata :=
  {| md_chunks_dict := chunks_dict s;
     md_dimension := dimension s;
     md_total_vectors := total_vectors s;
     md_index_type := index_type s;
     md_docstore := docstore s;
     md_index_to_docstore_id := index_to_docstore_id s;
     md_documents := documents s;
     md_enable_reranking := enable_reranking s |}.

(** [save_index]: the instance is only read, two files are written. *)
Definition save_index (s : State) (file_path : string) (fs : gmap string Blob)
    : gmap string Blob * Result unit :=
  match index s with
  | None => (fs, Raise (ValueError "No index to save"))
  | Some idx =>
      let fs := <[index_file file_path := write_index idx]> fs in
      let fs := <[metadata_file file_path := pickle_dump (metadata_of s)]> fs in
      (fs, Ok tt)
  end.

(** [load_index] *)
Definition load_index (file_path : string) (em_arg : option Embedder)
    (fs : gmap string Blob) : Method unit :=
  match fs !! index_file file_path with
  | None =>
      raise (FileNotFoundError ("Index file " +:+ index_file file_path +:+ " not found"))
  | Some index_blob =>
      match fs !! metadata_file file_path with
      | None =>
          raise (FileNotFoundError
                   ("Metadata file " +:+ metadata_file file_path +:+ " not found"))
      | Some metadata_blob =>
          idx ← lift (read_index index_blob);
          assign (with_index (Some idx));;
          md ← lift (pickle_load metadata_blob);
          assign (with_chunks_dict (md_chunks_dict md));;
          assign (with_dimension (md_dimension md));;
          assign (with_total_vectors (md_total_vectors md));;
          assign (with_index_type (md_index_type md));;
          match em_arg with
          | Some em => assign (with_embedder_model (Some em))
          | None => mret tt
          end
      end
  end.

(** ** The two ingestion calls *)

Inductive Ingestion :=
  | ChunkBuild (em_arg : option Embedder)
  | EnhancedBuild (normalize_embeddings : bool).

Definition ingest (op : Ingestion) (docs : list Document) : Method unit :=
  match op with
  | ChunkBuild em_arg => create_vector_store docs em_arg
  | EnhancedBuild normalize_embeddings => create_vectorstore docs normalize_embeddings
  end.

End Model.

Arguments ndarray : clear implicits.
Arguments ArrayLike : clear implicits.
Arguments FaissIndex : clear implicits.
Arguments PyVal : clear implicits.
Arguments Document : clear implicits.
Arguments ChunkResult : clear implicits.
Arguments Embedder : clear implicits.
Arguments State : clear implicits.
Arguments Metadata : clear implicits.
Arguments Externals : clear implicits.
Arguments Event : clear implicits.
Arguments Ingestion : clear implicits.
Arguments SearchMethod : clear implicits.
Arguments method_sig {F A} _.
Arguments method_body {F A} _.

(** ** A concrete instance of the collaborators

    Scalars are integers, FAISS' search is the exhaustive inner-product scan
    it documents, the serialisers keep what they are given, the reranker
    returns its candidates unchanged and an embedder maps a text to the
    vector (length of the text, 1). *)

Module Examples.

Fixpoint dot (u v : list Z) : Z :=
  match u, v with
  | x :: u', y :: v' => x * y + dot u' v'
  | _, _ => 0
  end.

(** The rows of a flat buffer, [d] scalars each. *)
Fixpoint rows_of (n d : nat) (buf : list Z) : list (list Z) :=
  match n with
  | O => []
  | S n' => take d buf :: rows_of n' d (drop d buf)
  end.

Fixpoint insert_by_score (hit : Z * Z) (hits : list (Z * Z)) : list (Z * Z) :=
  match hits with
  | [] => [hit]
  | h :: rest =>
      if h.1 <? hit.1 then hit :: h :: rest else h :: insert_by_score hit rest
  end.

Definition ranked (q : list Z) (idx : FaissIndex Z) : list (Z * Z) :=
  foldr insert_by_score []
    (imap (fun i row => (dot q row, Z.of_nat i)) (rows_of (ntotal idx) (idx_d idx) (xb idx))).

Definition flat_search (idx : FaissIndex Z) (q : ndarray Z) (k : Z)
    : Result (list Z * list Z) :=
  if k <=? 0 then Raise (AssertionError "k > 0")
  else
    let hits := take (Z.to_nat k) (ranked (data q) idx) in
    let pad := (Z.to_nat k - length hits)%nat in
    Ok ((fst <$> hits) ++ replicate pad 0, (snd <$> hits) ++ replicate pad (-1)).

Inductive File :=
  | IndexFile (idx : FaissIndex Z)
  | PickleFile (md : Metadata Z).

Definition read_index_file (f : File) : Result (FaissIndex Z) :=
  match f with
  | IndexFile idx => Ok idx
  | PickleFile _ => Raise (OtherError "not a FAISS index")
  end.

Definition unpickle (f : File) : Result (Metadata Z) :=
  match f with
  | PickleFile md => Ok md
  | IndexFile _ => Raise (OtherError "could not unpickle")
  end.

#[local] Instance externals : Externals Z := {|
  Blob := File;
  faiss_search := flat_search;
  fvec_renorm_L2 := fun _ _ xs => xs;
  write_index := IndexFile;
  read_index := read_index_file;
  pickle_dump := PickleFile;
  pickle_load := unpickle;
  rerank_chunks := fun _ docs => Ok docs
|}.

Definition embed_text (t : string) : ArrayLike Z :=
  AList [ANum (Z.of_nat (String.length t)); ANum 1].

(** An embedder with [batch_embed] only. *)
Definition embedder : Embedder Z :=
  {| batch_embed := fun texts => Ok (AList (embed_text <$> texts));
     embed_query := None |}.

(** An embedder that also has [embed_query]. *)
Definition query_embedder : Embedder Z :=
  {| batch_embed := fun texts => Ok (AList (embed_text <$> texts));
     embed_query := Some (fun q => Ok (embed_text q)) |}.

(** An embedder whose service is down. *)
Definition failing_embedder : Embedder Z :=
  {| batch_embed := fun _ => Raise (OtherError "embedding service unavailable");
     embed_query := None |}.

(** An embedder that answers with a three-dimensional array. *)
Definition cubic_embedder : Embedder Z :=
  {| batch_embed := fun _ => Ok (AArray {| shape := [1; 1; 2]%nat; data := [3; 1] |});
     embed_query := None |}.

Definition doc (t : string) : Document Z := {| page_content := t; metadata := ∅ |}.

Definition tagged_doc (t source : string) : Document Z :=
  {| page_content := t; metadata := {["source" := VStr source]} |}.

Definition pets : list (Document Z) := [doc "cat"; doc "doggy"; doc "cars"].

Definition library : list (Document Z) :=
  [tagged_doc "alpha" "a.txt"; tagged_doc "be" "b.txt"].

(** A fresh instance, built in chunk mode from [pets]. *)
Definition chunk_store : State Z :=
  (create_vector_store pets None (init (Some embedder))).1.

(** A fresh instance, built in enhanced mode from [library]. *)
Definition enhanced_store : State Z :=
  (create_vectorstore library true (init (Some embedder))).1.

(** [enhanced_store] rebuilt in chunk mode from one document. *)
Definition rebuilt_store : State Z :=
  (create_vector_store [doc "gamma"] None enhanced_store).1.

(** The files [enhanced_store.save_index("kb")] leaves on an empty disk. *)
Definition saved_enhanced : gmap string File := (save_index enhanced_store "kb" ∅).1.

(** A fresh instance after [load_index("kb")]. *)
Definition reloaded_store : State Z :=
  (load_index "kb" None saved_enhanced (init None)).1.

(** A vector of [n] zeros, as a Python list. *)
Definition zeros (n : nat) : ArrayLike Z := AList (replicate n (ANum 0)).

(** An instance whose index has dimension 384. *)
Definition wide_store : State Z :=
  with_index (Some (IndexFlatIP 384)) (with_dimension (Some 384%nat)
    (with_chunks_dict (Some ∅) (init (Some embedder)))).

(** A fresh instance built in chunk mode from one document, and the files
    its [save_index("small")] leaves. *)
Definition small_store : State Z :=
  (create_vector_store [doc "gamma"] None (init (Some embedder))).1.

Definition saved_small : gmap string File := (save_index small_store "small" ∅).1.

(** [enhanced_store] after [load_index("small")]. *)
Definition overloaded_store : State Z :=
  (load_index "small" None saved_small enhanced_store).1.

(** The two search helpers as they would be with their parameter named
    [initial_k]. *)
Definition sig_renamed (name : string) : Signature :=
  {| sig_name := name; sig_positional := "query_embedding";
     sig_keyword := "initial_k"; sig_default := 5 |}.

(** An embedder that answers with one flat vector, whatever it is given. *)
Definition flat_embedder : Embedder Z :=
  {| batch_embed := fun _ => Ok (AList [ANum 3; ANum 1; ANum 4]);
     embed_query := None |}.

(** A disk on which the metadata file of "kb" holds something that is not a
    pickle. *)
Definition broken_disk : gmap string File :=
  <[metadata_file "kb" := IndexFile (IndexFlatIP 2)]> saved_enhanced.

End Examples.

(** * Properties *)

Section Properties.
Context {F : Type} `{X : Externals F}.

(** ** Dictionaries built by comprehension *)

Lemma py_dict_list_to_map `{Countable K} {V} (items : list (K * V)) :
  NoDup items.*1 → py_dict items = list_to_map items.
Proof.
  induction items as [|[k v] items IH] using rev_ind; [done|].
  rewrite fmap_app, NoDup_app. simpl. intros (Hnd & Hfresh & _).
  unfold py_dict in *. rewrite foldl_snoc, IH by done. simpl.
  rewrite list_to_map_snoc; [done|].
  intros Hin. apply (Hfresh k Hin). by left.
Qed.

Lemma enumerate_keys {V} (l : list V) :
  (imap (fun i x => (Z.of_nat i, x)) l).*1 = Z.of_nat <$> seq 0 (length l).
Proof. by rewrite fmap_imap, <- imap_seq_0. Qed.

Lemma enumerate_keys_NoDup {V} (l : list V) :
  NoDup (imap (fun i x => (Z.of_nat i, x)) l).*1.
Proof. rewrite enumerate_keys. apply NoDup_fmap; [apply _|apply NoDup_seq]. Qed.

Lemma enumerate_dict_lookup {V} (l : list V) (i : nat) :
  enumerate_dict l !! Z.of_nat i = l !! i.
Proof.
  unfold enumerate_dict. rewrite py_dict_list_to_map by apply enumerate_keys_NoDup.
  destruct (l !! i) as [x|] eqn:Hi.
  - apply elem_of_list_to_map; [apply enumerate_keys_NoDup|].
    by apply (elem_of_lookup_imap_2 (fun i x => (Z.of_nat i, x))).
  - apply not_elem_of_list_to_map_1. rewrite enumerate_keys.
    intros (j & Hj & Hin)%list_elem_of_fmap. apply Nat2Z.inj in Hj as <-.
    apply elem_of_seq in Hin. apply lookup_ge_None in Hi. lia.
Qed.

Lemma enumerate_dict_size {V} (l : list V) : size (enumerate_dict l) = length l.
Proof.
  unfold enumerate_dict. rewrite py_dict_list_to_map by apply enumerate_keys_NoDup.
  rewrite map_size_list_to_map by apply enumerate_keys_NoDup. apply length_imap.
Qed.

Lemma docstore_keys_NoDup {V} (l : list V) :
  NoDup (imap (fun i x => (str i, x)) l).*1.
Proof.
  rewrite fmap_imap.
  rewrite (imap_ext _ (fun i _ => str i)) by done.
  rewrite imap_seq_0. apply NoDup_fmap; [apply pretty_nat_inj|apply NoDup_seq].
Qed.

Lemma docstore_build_lookup {V} (l : list V) (i : nat) (x : V) :
  l !! i = Some x → py_dict (imap (fun i x => (str i, x)) l) !! str i = Some x.
Proof.
  intros Hi. rewrite py_dict_list_to_map by apply docstore_keys_NoDup.
  apply elem_of_list_to_map; [apply docstore_keys_NoDup|].
  by apply (elem_of_lookup_imap_2 (fun i x => (str i, x))).
Qed.

Lemma ids_build_lookup (n i : nat) :
  (i < n)%nat →
  py_dict ((fun i => (Z.of_nat i, str i)) <$> seq 0 n) !! Z.of_nat i = Some (str i).
Proof.
  intros Hi.
  assert (NoDup ((fun i => (Z.of_nat i, str i)) <$> seq 0 n).*1) as Hnd.
  { rewrite <- list_fmap_compose. apply NoDup_fmap; [|apply NoDup_seq].
    intros a b Hab. simpl in Hab. lia. }
  rewrite py_dict_list_to_map by done.
  apply elem_of_list_to_map; [done|].
  apply list_elem_of_fmap. exists i. split; [done|]. apply elem_of_seq. lia.
Qed.

(** ** Unfolding the two monads *)

Ltac unfold_method :=
  unfold mbind, mret, method_mbind, method_mret, method_bind, method_ret,
    self, assign, raise, lift, set_embedder_model in *.

Ltac unfold_run :=
  unfold mbind, mret, run_mbind, run_mret, run_bind, run_ret, tell, run_lift,
    result_mbind, result_ret, result_bind in *.

(** ** What a successful build leaves in the instance *)

Lemma create_vector_store_ok (docs : list (Document F)) em_arg (s s' : State F) :
  create_vector_store docs em_arg s = (s', Ok tt) →
  chunks_dict s' = Some (enumerate_dict (page_content <$> docs))
  ∧ docstore s' = docstore s
  ∧ index_to_docstore_id s' = index_to_docstore_id s
  ∧ ∃ idx, index s' = Some idx ∧ total_vectors s' = ntotal idx
           ∧ dimension s' = Some (idx_d idx).
Proof.
  unfold create_vector_store. unfold_method. intros Hrun.
  destruct em_arg as [em|]; simpl in Hrun.
  all: repeat (case_match; simplify_eq/=; try done).
  all: unfold faiss_add in *; repeat (case_match; simplify_eq/=; try done).
  all: split_and!; try done; eexists; split_and!; try done.
  all: by case_bool_decide; simplify_eq/=.
Qed.

Lemma create_vectorstore_ok (docs : list (Document F)) nrm (s s' : State F) :
  create_vectorstore docs nrm s = (s', Ok tt) →
  chunks_dict s' = Some (enumerate_dict (page_content <$> docs))
  ∧ docstore s' = Some (py_dict (imap (fun i doc => (str i, doc)) docs))
  ∧ index_to_docstore_id s'
    = Some (py_dict ((fun i => (Z.of_nat i, str i)) <$> seq 0 (length docs)))
  ∧ documents s' = Some docs
  ∧ ∃ idx, index s' = Some idx ∧ total_vectors s' = ntotal idx
           ∧ dimension s' = Some (idx_d idx).
Proof.
  unfold create_vectorstore. unfold_method. intros Hrun.
  repeat (case_match; simplify_eq/=; try done).
  all: unfold faiss_add in *; repeat (case_match; simplify_eq/=; try done).
  all: split_and!; try done; eexists; split_and!; try done.
  all: by case_bool_decide; simplify_eq/=.
Qed.

Lemma ingest_ok_chunks op (docs : list (Document F)) (s s' : State F) :
  ingest op docs s = (s', Ok tt) →
  chunks_dict s' = Some (enumerate_dict (page_content <$> docs)).
Proof.
  destruct op; simpl; intros Hrun.
  - by apply create_vector_store_ok in Hrun as (? & _).
  - by apply create_vectorstore_ok in Hrun as (? & _).
Qed.

(** ** Row ids follow the input order *)

(** C10. After a successful build from [docs], in chunk mode or in enhanced
    mode, a search hit on row id [i] is resolved by the chunk table to the
    text of the [i]-th document, and after an enhanced build the docstore
    resolves it to a document with the content of the [i]-th document: row
    ids 0..n-1 are assigned in input order. *)
Theorem row_id_stability op (docs : list (Document F)) (s s' : State F)
    (i : nat) (d : Document F) (distances : list F) (indices : list Z)
    (j : nat) (score : F) :
  ingest op docs s = (s', Ok tt) →
  docs !! i = Some d →
  indices !! j = Some (Z.of_nat i) →
  distances !! j = Some score →
  chunk_hit s' distances indices j
    = Ok (Some {| chunk_id := Z.of_nat i; text := page_content d;
                  distance := score; similarity := score |})
  ∧ (∀ nrm, op = EnhancedBuild nrm →
       ∃ found, docstore_hit s' distances indices j = Ok (Some found)
                ∧ page_content found = page_content d).
Proof.
  intros Hbuild Hd Hidx Hdist. split.
  - apply ingest_ok_chunks in Hbuild as Hchunks.
    unfold chunk_hit, item, container. rewrite Hidx, Hchunks, Hdist. simpl.
    rewrite bool_decide_eq_true_2 by lia.
    rewrite enumerate_dict_size, length_fmap.
    apply lookup_lt_Some in Hd as Hlt.
    rewrite bool_decide_eq_true_2 by lia. simpl.
    by rewrite enumerate_dict_lookup, list_lookup_fmap, Hd.
  - intros nrm ->. simpl in Hbuild.
    apply create_vectorstore_ok in Hbuild as (_ & Hds & Hids & _).
    apply lookup_lt_Some in Hd as Hlt.
    unfold docstore_hit, item, container. rewrite Hidx, Hids, Hds, Hdist. simpl.
    rewrite bool_decide_eq_true_2 by lia.
    rewrite ids_build_lookup by done.
    rewrite (docstore_build_lookup docs i d Hd). simpl. eauto.
Qed.

(** ** An ingestion call that raises *)

(** C6, as amended. When an ingestion call raises, the tables of the store
    ([chunks_dict], [docstore], [index_to_docstore_id], [documents]) and
    [total_vectors] are as before the call. [embedder_model] is the embedder
    passed to [create_vector_store], when one was passed, and the old one
    otherwise. When the exception comes from [index.add], the embeddings were
    obtained, [dimension] is already their [shape[1]] and [index] the new,
    still empty, index of that dimension. Otherwise the exception comes from
    an earlier step (no embedder, [batch_embed], the conversion to an array,
    [shape[1]]) and [index] and [dimension] are as before the call. *)
Theorem failed_ingestion_state op (docs : list (Document F)) (s s' : State F) e :
  ingest op docs s = (s', Raise e) →
  let used_embedder :=
    match op with
    | ChunkBuild (Some em) => Some em
    | _ => embedder_model s
    end in
  let reshaped arr := if bool_decide (ndim arr = 1%nat) then reshape_row arr else arr in
  let added arr :=
    match op with
    | EnhancedBuild true => normalize_L2 (reshaped arr)
    | _ => reshaped arr
    end in
  chunks_dict s' = chunks_dict s
  ∧ docstore s' = docstore s
  ∧ index_to_docstore_id s' = index_to_docstore_id s
  ∧ documents s' = documents s
  ∧ total_vectors s' = total_vectors s
  ∧ embedder_model s' = used_embedder
  ∧ ((∃ em out arr d,
        used_embedder = Some em
        ∧ batch_embed em (page_content <$> docs) = Ok out
        ∧ np_array out = Ok arr
        ∧ shape_at (reshaped arr) 1 = Ok d
        ∧ faiss_add (IndexFlatIP d) (added arr) = Raise e
        ∧ index s' = Some (IndexFlatIP d) ∧ dimension s' = Some d)
     ∨ (index s' = index s ∧ dimension s' = dimension s
        ∧ (used_embedder = None
           ∨ ∃ em, used_embedder = Some em
                   ∧ (batch_embed em (page_content <$> docs) = Raise e
                      ∨ ∃ out, batch_embed em (page_content <$> docs) = Ok out
                               ∧ (np_array out = Raise e
                                  ∨ ∃ arr, np_array out = Ok arr
                                           ∧ shape_at (reshaped arr) 1 = Raise e))))).
Proof.
  intros Hrun used_embedder reshaped added. subst used_embedder reshaped added.
  destruct op as [[passed|]|nrm]; simpl in *;
    unfold create_vector_store, create_vectorstore in Hrun; unfold_method.
  all: simpl in Hrun.
  all: try (destruct (embedder_model s) as [em|] eqn:Hem; simpl in Hrun;
            [|simplify_eq; split_and!; try done; right; by split_and!; auto]).
  all: match type of Hrun with
       | context [batch_embed ?m ?texts] =>
           destruct (batch_embed m texts) as [out|] eqn:Hout; simpl in Hrun;
           [|simplify_eq; split_and!; try done; right; split_and!; eauto 10]
       end.
  all: destruct (np_array out) as [arr|] eqn:Harr; simpl in Hrun;
         [|simplify_eq; split_and!; try done; right; split_and!; eauto 10].
  all: match type of Hrun with
       | context [shape_at ?a 1] =>
           destruct (shape_at a 1) as [d|] eqn:Hd; simpl in Hrun;
           [|simplify_eq; split_and!; try done; right; split_and!; eauto 12]
       end.
  all: match type of Hrun with
       | context [faiss_add ?i ?a] =>
           destruct (faiss_add i a) as [idx|] eqn:Hadd; simpl in Hrun; [done|]
       end.
  all: simplify_eq; split_and!; try done; left.
  all: destruct nrm || idtac.
  all: eexists _, _, _, _; split_and!; (done || eassumption).
Qed.

(** ** Loading without both files *)

(** C7. When the index file or the metadata file is absent, [load_index]
    raises [FileNotFoundError] with a message that names an absent file and
    leaves the instance as it was; when the index file is there and only the
    metadata file is absent, the message names the metadata file. *)
Theorem load_index_missing_artifact (file_path : string) em_arg
    (fs : gmap string Blob) (s : State F) :
  fs !! index_file file_path = None ∨ fs !! metadata_file file_path = None →
  ∃ kind missing,
    load_index file_path em_arg fs s
      = (s, Raise (FileNotFoundError (kind +:+ missing +:+ " not found")))
    ∧ (missing = index_file file_path ∨ missing = metadata_file file_path)
    ∧ fs !! missing = None
    ∧ (is_Some (fs !! index_file file_path) → missing = metadata_file file_path).
Proof.
  intros Habsent. unfold load_index.
  destruct (fs !! index_file file_path) as [ib|] eqn:Hidx.
  - destruct Habsent as [?|Hmeta]; [done|]. rewrite Hmeta.
    exists "Metadata file ", (metadata_file file_path). by split_and!; eauto.
  - exists "Index file ", (index_file file_path). split_and!; eauto.
    by intros [? ?].
Qed.

(** ** Queries of the wrong dimension *)

(** C8. When the query, converted and reshaped as the search helpers do,
    has rows of a length that differs from the dimension of the instance,
    [_search_chunks] and [_search_with_docstore] both raise [ValueError]
    (dimension mismatch) without calling the index: their trace of calls is
    empty. *)
Theorem search_dimension_mismatch (s : State F) (query_embedding : ArrayLike F)
    (q : ndarray F) (n d : nat) (top_k : Z) :
  shape_query query_embedding = Ok q →
  shape q !! 1%nat = Some n →
  dimension s = Some d →
  n ≠ d →
  let mismatch :=
    ValueError ("Query embedding dimension " +:+ pretty n +:+
                " doesn't match index dimension " +:+ pretty d) in
  _search_chunks s query_embedding top_k = ([], Raise mismatch)
  ∧ _search_with_docstore s query_embedding top_k = ([], Raise mismatch).
Proof.
  intros Hq Hn Hd Hne mismatch.
  unfold _search_chunks, _search_with_docstore, check_dimension, shape_at.
  rewrite Hq. unfold_run. simpl. rewrite Hn, Hd.
  rewrite bool_decide_eq_false_2 by (intros [=]; done).
  done.
Qed.

(** ** The initial search of the retrieval *)

Lemma initial_search_raises (s : State F) (query_embedding : ArrayLike F) :
  initial_search s query_embedding
  = ([], Raise (TypeError (sig_name (callee (initial_search_call s)) +:+
                           "() got an unexpected keyword argument 'initial_k'"))).
Proof. unfold initial_search, initial_search_call. by destruct (docstore s). Qed.

(** C1. Once the query embedding is obtained, [get_relevant_documents]
    calls its search helper with the keyword [initial_k], which the helper
    does not declare: the call raises [TypeError] before the helper runs,
    whatever the query string and [top_k] are. No call of
    [get_relevant_documents], on any instance, returns a list. *)
Theorem get_relevant_documents_type_error (s : State F) (q : string) (top_k : Z)
    (calls : list (Event F)) (query_embedding : ArrayLike F) :
  embed s (QStr q) = (calls, Ok query_embedding) →
  get_relevant_documents s (QStr q) top_k
    = (calls, Raise (TypeError (sig_name (callee (initial_search_call s)) +:+
                                "() got an unexpected keyword argument 'initial_k'")))
  ∧ (∀ s' query k docs, outcome (get_relevant_documents s' query k) ≠ Ok docs).
Proof.
  intros Hembed. split.
  - unfold get_relevant_documents. rewrite Hembed. unfold_run.
    rewrite initial_search_raises. by rewrite app_nil_r.
  - intros s' query k docs. unfold get_relevant_documents, outcome.
    destruct (embed s' query) as [t [qe|e]] eqn:He; unfold_run; [|done].
    by rewrite initial_search_raises.
Qed.

(** The calls a run makes, step by step. *)
Lemma trace_bind {A B} (m : Run (F:=F) A) (f : A → Run B) :
  trace (m ≫= f)
  = trace m ++ match outcome m with
               | Ok a => trace (f a)
               | Raise _ => []
               end.
Proof.
  destruct m as [t [a|e]]; unfold trace, outcome; unfold_run; simpl.
  - by destruct (f a).
  - by rewrite app_nil_r.
Qed.

Lemma embed_trace (s : State F) (query : Query) (call : Event F) :
  call ∈ trace (embed s query) →
  (∃ q, call = EmbedQuery q) ∨ (∃ texts, call = BatchEmbed texts).
Proof.
  unfold embed, trace. unfold_run.
  destruct (embedder_model s) as [em|]; simpl; [|by intros ?%elem_of_nil].
  destruct query as [q|qs]; simpl.
  - destruct (embed_query em) as [embed_one|]; simpl.
    + destruct (embed_one q); simpl; intros ->%list_elem_of_singleton; eauto.
    + destruct (batch_embed em [q]) as [out|]; simpl.
      * repeat (case_match; simplify_eq/=);
          intros ->%list_elem_of_singleton; eauto.
      * intros ->%list_elem_of_singleton; eauto.
  - destruct (batch_embed em qs); simpl; intros ->%list_elem_of_singleton; eauto.
Qed.

Lemma _search_chunks_trace (s : State F) query_embedding (top_k : Z) (call : Event F) :
  call ∈ trace (_search_chunks s query_embedding top_k) →
  ∃ q, call = IndexSearch q top_k.
Proof.
  unfold _search_chunks, index_search, trace. unfold_run.
  repeat (case_match; simplify_eq/=); try (by intros ?%elem_of_nil).
  all: intros ->%list_elem_of_singleton; eauto.
Qed.

Lemma _search_with_docstore_trace (s : State F) query_embedding (top_k : Z)
    (call : Event F) :
  call ∈ trace (_search_with_docstore s query_embedding top_k) →
  ∃ q, call = IndexSearch q top_k.
Proof.
  unfold _search_with_docstore, index_search, trace. unfold_run.
  repeat (case_match; simplify_eq/=); try (by intros ?%elem_of_nil).
  all: intros ->%list_elem_of_singleton; eauto.
Qed.

Lemma invoke_initial_k {A} (m : SearchMethod F A) (s : State F) query_embedding :
  sig_keyword (method_sig m) = "initial_k" →
  invoke m [("initial_k", 5)] s query_embedding = method_body m s query_embedding 5.
Proof.
  intros Hkw. unfold invoke, bind_call. simpl. rewrite Hkw. simpl.
  unfold_run. simpl. by destruct (method_body m s query_embedding 5).
Qed.


(** ** Saving and loading *)

Lemma index_file_ne_metadata_file (file_path : string) :
  index_file file_path ≠ metadata_file file_path.
Proof.
  unfold index_file, metadata_file. intros Heq.
  by apply String.app_inj in Heq.
Qed.

(** The search helpers read [index], [dimension] and their own tables only. *)
Lemma _search_chunks_ext (s1 s2 : State F) query_embedding top_k :
  index s1 = index s2 → dimension s1 = dimension s2 →
  chunks_dict s1 = chunks_dict s2 →
  _search_chunks s1 query_embedding top_k = _search_chunks s2 query_embedding top_k.
Proof.
  intros Hi Hd Hc.
  unfold _search_chunks, check_dimension, index_search, chunk_hit.
  by rewrite Hi, Hd, Hc.
Qed.

Lemma _search_with_docstore_ext (s1 s2 : State F) query_embedding top_k :
  index s1 = index s2 → dimension s1 = dimension s2 →
  docstore s1 = docstore s2 →
  index_to_docstore_id s1 = index_to_docstore_id s2 →
  _search_with_docstore s1 query_embedding top_k
  = _search_with_docstore s2 query_embedding top_k.
Proof.
  intros Hi Hd Hds Hids.
  unfold _search_with_docstore, check_dimension, index_search, docstore_hit.
  by rewrite Hi, Hd, Hds, Hids.
Qed.

(** [load_index] assigns neither [docstore] nor [index_to_docstore_id] nor
    [documents]: they stay what they were in the loading instance. *)
Lemma load_index_keeps_docstore file_path em_arg (fs : gmap string Blob) (s : State F) :
  let s' := (load_index file_path em_arg fs s).1 in
  docstore s' = docstore s
  ∧ index_to_docstore_id s' = index_to_docstore_id s
  ∧ documents s' = documents s.
Proof.
  unfold load_index. unfold_method. simpl.
  repeat (case_match; simplify_eq/=; try done).
Qed.

(** What a successful load restores. *)
Lemma load_after_save (s s0 : State F) (idx : FaissIndex F) file_path em_arg
    (fs : gmap string Blob) :
  index s = Some idx →
  read_index (write_index idx) = Ok idx →
  pickle_load (pickle_dump (metadata_of s)) = Ok (metadata_of s) →
  ∃ fs' s1,
    save_index s file_path fs = (fs', Ok tt)
    ∧ load_index file_path em_arg fs' s0 = (s1, Ok tt)
    ∧ index s1 = index s ∧ dimension s1 = dimension s
    ∧ total_vectors s1 = total_vectors s ∧ index_type s1 = index_type s
    ∧ chunks_dict s1 = chunks_dict s
    ∧ docstore s1 = docstore s0
    ∧ index_to_docstore_id s1 = index_to_docstore_id s0.
Proof.
  intros Hidx Hread Hload.
  unfold save_index, load_index. rewrite Hidx.
  destruct em_arg; (eexists _, _; split; [done|]).
  all: rewrite lookup_insert_ne by (symmetry; apply index_file_ne_metadata_file).
  all: rewrite lookup_insert_eq, lookup_insert_eq.
  all: unfold_method; rewrite Hread, Hload; simpl.
  all: by split_and!.
Qed.

(** C3. Saving a built instance under a path prefix and loading from that
    prefix, into any instance, gives an instance whose index answers every
    query with the same row ids and scores as before the save, and whose
    chunk search returns the same hits; the docstore search returns the same
    documents whenever the loading instance holds the docstore tables of the
    saving one. The serialisers are assumed to give back this index and this
    metadata. *)
Theorem save_load_search_roundtrip (s s0 : State F) (idx : FaissIndex F)
    file_path em_arg (fs : gmap string Blob) :
  index s = Some idx →
  read_index (write_index idx) = Ok idx →
  pickle_load (pickle_dump (metadata_of s)) = Ok (metadata_of s) →
  ∃ fs' s1,
    save_index s file_path fs = (fs', Ok tt)
    ∧ load_index file_path em_arg fs' s0 = (s1, Ok tt)
    ∧ (∀ q k, index_search s1 q k = index_search s q k)
    ∧ (∀ query_embedding k,
         _search_chunks s1 query_embedding k = _search_chunks s query_embedding k)
    ∧ (docstore s0 = docstore s →
       index_to_docstore_id s0 = index_to_docstore_id s →
       ∀ query_embedding k,
         _search_with_docstore s1 query_embedding k
         = _search_with_docstore s query_embedding k).
Proof.
  intros Hidx Hread Hload.
  destruct (load_after_save s s0 idx file_path em_arg fs Hidx Hread Hload)
    as (fs' & s1 & Hsave & Hld & Hi & Hd & _ & _ & Hc & Hds & Hids).
  exists fs', s1. split_and!; [done|done|..].
  - intros q k. unfold index_search. by rewrite Hi.
  - intros qe k. by apply _search_chunks_ext.
  - intros Hds0 Hids0 qe k. apply _search_with_docstore_ext; congruence.
Qed.

(** ** The steps after the reranker *)

(** X20. What [get_relevant_documents] does with the list the reranker
    returns, for a [top_k] that is not negative: at most [top_k] documents
    are kept, and every kept document whose metadata is not empty carries
    [reranked = True]. *)
Lemma tag_and_truncate (docs : list (Document F)) (top_k : Z) :
  0 ≤ top_k →
  let results := py_slice_to (tag_reranked <$> docs) top_k in
  Z.of_nat (length results) ≤ top_k
  ∧ ∀ doc, doc ∈ results → metadata doc ≠ ∅ →
           metadata doc !! "reranked" = Some (VBool true).
Proof.
  intros Hk results. subst results. unfold py_slice_to.
  rewrite (proj2 (Z.leb_le 0 top_k) Hk). split.
  - rewrite length_take. lia.
  - intros doc Hin%subseteq_take Hne.
    apply list_elem_of_fmap in Hin as (doc0 & -> & _).
    unfold tag_reranked in *. case_bool_decide; [done|].
    simpl. apply lookup_insert_eq.
Qed.

(** ** Further properties of the builds *)

Lemma enumerate_dict_lookup_Z {V} (l : list V) (z : Z) :
  enumerate_dict l !! z = if decide (0 ≤ z) then l !! Z.to_nat z else None.
Proof.
  case_decide as Hz.
  - rewrite <- (Z2Nat.id z) at 1 by done. apply enumerate_dict_lookup.
  - unfold enumerate_dict. rewrite py_dict_list_to_map by apply enumerate_keys_NoDup.
    apply not_elem_of_list_to_map_1. rewrite enumerate_keys.
    intros (j & -> & _)%list_elem_of_fmap. lia.
Qed.

Lemma ids_build_lookup_Z (n : nat) (z : Z) :
  py_dict ((fun i => (Z.of_nat i, str i)) <$> seq 0 n) !! z
  = if decide (0 ≤ z < Z.of_nat n) then Some (str (Z.to_nat z)) else None.
Proof.
  case_decide as Hz.
  - rewrite <- (Z2Nat.id z) at 1 by lia. apply ids_build_lookup. lia.
  - assert (NoDup ((fun i => (Z.of_nat i, str i)) <$> seq 0 n).*1) as Hnd.
    { rewrite <- list_fmap_compose. apply NoDup_fmap; [|apply NoDup_seq].
      intros a b Hab. simpl in Hab. lia. }
    rewrite py_dict_list_to_map by done.
    apply not_elem_of_list_to_map_1. rewrite <- list_fmap_compose.
    intros (j & -> & Hj%elem_of_seq)%list_elem_of_fmap. simpl in Hz. lia.
Qed.

Lemma docstore_build_lookup_eq {V} (l : list V) (i : nat) :
  py_dict (imap (fun i x => (str i, x)) l) !! str i = l !! i.
Proof.
  destruct (l !! i) as [x|] eqn:Hi; [by apply docstore_build_lookup|].
  rewrite py_dict_list_to_map by apply docstore_keys_NoDup.
  apply not_elem_of_list_to_map_1.
  rewrite fmap_imap, (imap_ext _ (fun i _ => str i)) by done.
  rewrite imap_seq_0.
  intros (j & Hj & Hin%elem_of_seq)%list_elem_of_fmap.
  apply pretty_nat_inj in Hj as <-. apply lookup_ge_None in Hi. lia.
Qed.

(** A build whose embedder answers with an array that is, after the reshape
    of a one-dimensional answer, of shape (r, d). *)
Lemma ingest_run op (docs : list (Document F)) (s : State F) (em : Embedder F)
    (out : ArrayLike F) (a : ndarray F) (r d : nat) :
  match op with
  | ChunkBuild (Some passed) => Some passed
  | _ => embedder_model s
  end = Some em →
  batch_embed em (page_content <$> docs) = Ok out →
  np_array out = Ok a →
  shape (if bool_decide (ndim a = 1%nat) then reshape_row a else a) = [r; d] →
  ∃ s', ingest op docs s = (s', Ok tt)
        ∧ dimension s' = Some d
        ∧ total_vectors s' = r
        ∧ index s'
          = Some {| idx_d := d; ntotal := r;
                    xb := match op with
                          | EnhancedBuild true => fvec_renorm_L2 d r (data a)
                          | _ => data a
                          end |}
        ∧ embedder_model s' = Some em.
Proof.
  intros Hem Hout Harr Hshape.
  assert (data (if bool_decide (ndim a = 1%nat) then reshape_row a else a) = data a)
    as Hdata by (by case_bool_decide).
  destruct op as [[passed|]|[|]]; simpl in *; simplify_eq;
    unfold create_vector_store, create_vectorstore; unfold_method; simpl.
  all: try rewrite Hem; rewrite Hout; simpl; rewrite Harr; simpl.
  all: unfold shape_at, faiss_add, normalize_L2; simpl; rewrite Hshape; simpl.
  all: rewrite bool_decide_eq_true_2 by done; simpl.
  all: eexists; split; [done|]; simpl; rewrite ?Hdata; by split_and!.
Qed.

(** X1. An ingestion call on an instance that has no embedder, and that is
    not handed one, raises [ValueError] and leaves the instance exactly as
    it was. *)
Theorem ingest_without_embedder op (docs : list (Document F)) (s : State F) :
  embedder_model s = None →
  (∀ em, op ≠ ChunkBuild (Some em)) →
  ∃ msg, ingest op docs s = (s, Raise (ValueError msg)).
Proof.
  intros Hnone Hop.
  destruct op as [[em|]|nrm]; simpl; [by destruct (Hop em)|..];
    unfold create_vector_store, create_vectorstore; unfold_method; simpl;
    rewrite Hnone; eauto.
Qed.

(** X2. When the embedder answers with a two-dimensional array of [r] rows
    of length [d], a build in either mode succeeds: [dimension] is [d],
    [total_vectors] is [r], whatever the number of documents, and the index
    holds the [r] rows, L2-normalised by the enhanced build when asked to. *)
Theorem ingest_two_dimensional op (docs : list (Document F)) (s : State F)
    (em : Embedder F) (out : ArrayLike F) (a : ndarray F) (r d : nat) :
  match op with
  | ChunkBuild (Some passed) => Some passed
  | _ => embedder_model s
  end = Some em →
  batch_embed em (page_content <$> docs) = Ok out →
  np_array out = Ok a →
  shape a = [r; d] →
  ∃ s', ingest op docs s = (s', Ok tt)
        ∧ dimension s' = Some d
        ∧ total_vectors s' = r
        ∧ index s'
          = Some {| idx_d := d; ntotal := r;
                    xb := match op with
                          | EnhancedBuild true => fvec_renorm_L2 d r (data a)
                          | _ => data a
                          end |}.
Proof.
  intros Hem Hout Harr Hshape.
  destruct (ingest_run op docs s em out a r d Hem Hout Harr) as (s' & ? & ? & ? & ? & _).
  { unfold ndim. rewrite Hshape. by rewrite bool_decide_eq_false_2. }
  by exists s'.
Qed.

(** X3. When the embedder answers with a one-dimensional array of [n]
    scalars, the build takes it for a single vector: it succeeds with
    [dimension = n] and [total_vectors = 1], while the chunk table still
    gets one entry per document. *)
Theorem ingest_one_dimensional op (docs : list (Document F)) (s : State F)
    (em : Embedder F) (out : ArrayLike F) (a : ndarray F) (n : nat) :
  match op with
  | ChunkBuild (Some passed) => Some passed
  | _ => embedder_model s
  end = Some em →
  batch_embed em (page_content <$> docs) = Ok out →
  np_array out = Ok a →
  shape a = [n] →
  ∃ s' chunks, ingest op docs s = (s', Ok tt)
        ∧ dimension s' = Some n
        ∧ total_vectors s' = 1%nat
        ∧ chunks_dict s' = Some chunks
        ∧ size chunks = length docs.
Proof.
  intros Hem Hout Harr Hshape.
  destruct (ingest_run op docs s em out a 1 n Hem Hout Harr)
    as (s' & Hrun & ? & ? & _).
  { unfold ndim, reshape_row, nd_size. rewrite Hshape. simpl.
    by rewrite Nat.mul_1_r. }
  exists s', (enumerate_dict (page_content <$> docs)).
  split_and!; try done.
  - by apply ingest_ok_chunks in Hrun.
  - by rewrite enumerate_dict_size, length_fmap.
Qed.

(** X4. After a successful build in either mode the chunk table has exactly
    the keys 0 .. len(docs)-1: a row id has an entry exactly when it is in
    that range, and the table has len(docs) entries. *)
Theorem chunk_table_domain op (docs : list (Document F)) (s s' : State F) :
  ingest op docs s = (s', Ok tt) →
  ∃ chunks, chunks_dict s' = Some chunks
            ∧ size chunks = length docs
            ∧ ∀ z : Z, is_Some (chunks !! z) ↔ 0 ≤ z < Z.of_nat (length docs).
Proof.
  intros Hrun%ingest_ok_chunks. eexists. split; [done|]. split.
  - by rewrite enumerate_dict_size, length_fmap.
  - intros z. rewrite enumerate_dict_lookup_Z. case_decide as Hz.
    + rewrite lookup_lt_is_Some, length_fmap. lia.
    + split; [by intros [? ?]|lia].
Qed.

(** X5. After a successful enhanced build, the docstore reached through
    [index_to_docstore_id] maps row id [z] to the [z]-th document and to
    nothing outside 0 .. len(docs)-1, the chunk table holds the content of
    that same document, and [documents] is the list that was passed. *)
Theorem enhanced_tables_agree (docs : list (Document F)) nrm (s s' : State F) :
  create_vectorstore docs nrm s = (s', Ok tt) →
  ∃ ids ds chunks,
    index_to_docstore_id s' = Some ids ∧ docstore s' = Some ds
    ∧ chunks_dict s' = Some chunks ∧ documents s' = Some docs
    ∧ ∀ z : Z,
        (ids !! z ≫= fun key => ds !! key)
        = (if decide (0 ≤ z) then docs !! Z.to_nat z else None)
        ∧ chunks !! z = page_content <$> (ids !! z ≫= fun key => ds !! key).
Proof.
  intros (Hchunks & Hds & Hids & Hdocs & _)%create_vectorstore_ok.
  eexists _, _, _. split_and!; try done.
  intros z.
  assert ((py_dict ((fun i => (Z.of_nat i, str i)) <$> seq 0 (length docs)) !! z
           ≫= fun key => py_dict (imap (fun i doc => (str i, doc)) docs) !! key)
          = (if decide (0 ≤ z) then docs !! Z.to_nat z else None)) as Hres.
  { rewrite ids_build_lookup_Z. repeat case_decide; try lia; simpl.
    - apply docstore_build_lookup_eq.
    - symmetry. apply lookup_ge_None. lia.
    - done. }
  split; [done|]. rewrite Hres, enumerate_dict_lookup_Z.
  case_decide; [|done]. by rewrite list_lookup_fmap.
Qed.

(** X6. After a successful enhanced build whose embedder answered with one
    row per document, the row ids that resolve through the docstore are
    exactly those below [total_vectors]. *)
Theorem enhanced_rows_are_total_vectors (docs : list (Document F)) nrm
    (s : State F) (em : Embedder F) (out : ArrayLike F) (a : ndarray F) (d : nat) :
  embedder_model s = Some em →
  batch_embed em (page_content <$> docs) = Ok out →
  np_array out = Ok a →
  shape a = [length docs; d] →
  ∃ s' ids ds,
    create_vectorstore docs nrm s = (s', Ok tt)
    ∧ index_to_docstore_id s' = Some ids ∧ docstore s' = Some ds
    ∧ ∀ z : Z, is_Some (ids !! z ≫= fun key => ds !! key)
               ↔ 0 ≤ z < Z.of_nat (total_vectors s').
Proof.
  intros Hem Hout Harr Hshape.
  destruct (ingest_run (EnhancedBuild nrm) docs s em out a (length docs) d
              Hem Hout Harr) as (s' & Hrun & _ & Htotal & _).
  { unfold ndim. rewrite Hshape. by rewrite bool_decide_eq_false_2. }
  simpl in Hrun.
  destruct (create_vectorstore_ok docs nrm s s' Hrun) as (_ & Hds & Hids & _).
  eexists s', _, _. split_and!; try done.
  intros z. rewrite Htotal, ids_build_lookup_Z.
  case_decide as Hz; simpl.
  - rewrite docstore_build_lookup_eq, lookup_lt_is_Some. lia.
  - split; [by intros [? ?]|done].
Qed.

(** ** Further properties of the search helpers *)

Lemma mapM_Ok {A B} (f : A → Result B) (l : list A) (k : list B) :
  mapM f l = Ok k → Forall2 (fun x y => f x = Ok y) l k.
Proof.
  revert k. induction l as [|x l IH]; intros k Hk; simpl in Hk.
  - injection Hk as <-. constructor.
  - unfold mbind, mret, result_mbind, result_ret, result_bind in Hk.
    destruct (f x) as [y|] eqn:Hx; [|done].
    destruct (mapM f l) as [k'|]; [|done].
    injection Hk as <-. constructor; auto.
Qed.

Lemma mapM_snoc_Ok {A B} (f : A → Result B) (l : list A) (x : A)
    (k : list B) (y : B) :
  mapM f l = Ok k → f x = Ok y → mapM f (l ++ [x]) = Ok (k ++ [y]).
Proof.
  revert k. induction l as [|x' l IH]; intros k Hk Hx; simpl in *.
  - injection Hk as <-.
    unfold mbind, mret, result_mbind, result_ret, result_bind. by rewrite Hx.
  - unfold mbind, mret, result_mbind, result_ret, result_bind in *.
    destruct (f x') as [y'|]; [|done].
    destruct (mapM f l) as [k'|] eqn:Hl; [|done].
    injection Hk as <-. by rewrite (IH k' eq_refl Hx).
Qed.

Lemma length_hits {A B} (f : A → Result (option B)) (l : list A) (k : list (option B)) :
  mapM f l = Ok k → (length (omap id k) ≤ length l)%nat.
Proof.
  intros Hk%mapM_Ok. rewrite (Forall2_length _ _ _ Hk).
  clear. induction k as [|[y|] k IH]; csimpl; lia.
Qed.

Lemma elem_of_hits {A B} (f : A → Result (option B)) (l : list A)
    (k : list (option B)) (y : B) :
  mapM f l = Ok k → y ∈ omap id k → ∃ x, x ∈ l ∧ f x = Ok (Some y).
Proof.
  intros Hk%mapM_Ok (oy & Hin & Hoy)%list_elem_of_omap. simpl in Hoy. subst oy.
  apply list_elem_of_lookup in Hin as [i Hi].
  destruct (Forall2_lookup_r _ _ _ _ _ Hk Hi) as (x & Hx & Hfx).
  exists x. split; [|done]. by apply list_elem_of_lookup_2 in Hx.
Qed.

(** X7. When [_search_chunks] returns, it has called the index exactly
    once, it returns at most [top_k] hits, and every hit has a row id other
    than the sentinel -1 that is below the size of the chunk table, the text
    the table holds for that row, and a similarity equal to its distance. *)
Theorem _search_chunks_hits (s : State F) (query_embedding : ArrayLike F)
    (top_k : Z) (calls : list (Event F)) (hits : list (ChunkResult F)) :
  _search_chunks s query_embedding top_k = (calls, Ok hits) →
  (∃ q, calls = [IndexSearch q top_k])
  ∧ (length hits ≤ Z.to_nat top_k)%nat
  ∧ ∀ hit, hit ∈ hits →
      chunk_id hit ≠ -1
      ∧ similarity hit = distance hit
      ∧ ∃ chunks, chunks_dict s = Some chunks
                  ∧ chunk_id hit < Z.of_nat (size chunks)
                  ∧ chunks !! chunk_id hit = Some (text hit).
Proof.
  unfold _search_chunks, index_search. unfold_run. intros Hrun.
  destruct (shape_query query_embedding) as [q|]; [|done]. simpl in Hrun.
  destruct (check_dimension s q); [|done]. simpl in Hrun.
  destruct (index s) as [idx|]; [|done]. simpl in Hrun.
  destruct (faiss_search idx q top_k) as [[distances indices]|]; [|done].
  simpl in Hrun.
  destruct (mapM _ _) as [found|] eqn:Hfound; [|done]. simpl in Hrun.
  injection Hrun as <- <-. split_and!.
  - by eexists.
  - apply length_hits in Hfound. by rewrite length_seq in Hfound.
  - intros hit Hin.
    destruct (elem_of_hits _ _ _ _ Hfound Hin) as (i & _ & Hhit).
    unfold chunk_hit, item, container in Hhit.
    unfold mbind, result_mbind, result_bind in Hhit.
    repeat (case_match; simplify_eq/=; try done).
    repeat case_bool_decide; simplify_eq/=; eauto 10.
Qed.

(** X8. When [_search_with_docstore] returns, it has called the index
    exactly once, it returns at most [top_k] documents, and every document
    comes from a row id other than the sentinel -1 that [index_to_docstore_id]
    maps to a key of the docstore: it has the content of the stored document
    and the stored metadata with [similarity] and [retrieval_index] set. *)
Theorem _search_with_docstore_hits (s : State F) (query_embedding : ArrayLike F)
    (top_k : Z) (calls : list (Event F)) (docs : list (Document F)) :
  _search_with_docstore s query_embedding top_k = (calls, Ok docs) →
  (∃ q, calls = [IndexSearch q top_k])
  ∧ (length docs ≤ Z.to_nat top_k)%nat
  ∧ ∀ doc, doc ∈ docs →
      ∃ row key stored score ids ds,
        row ≠ -1
        ∧ index_to_docstore_id s = Some ids ∧ docstore s = Some ds
        ∧ ids !! row = Some key ∧ ds !! key = Some stored
        ∧ page_content doc = page_content stored
        ∧ metadata doc
          = <["retrieval_index" := VInt row]>
              (<["similarity" := VFloat score]> (metadata stored)).
Proof.
  unfold _search_with_docstore, index_search. unfold_run. intros Hrun.
  destruct (shape_query query_embedding) as [q|]; [|done]. simpl in Hrun.
  destruct (check_dimension s q); [|done]. simpl in Hrun.
  destruct (index s) as [idx|]; [|done]. simpl in Hrun.
  destruct (faiss_search idx q top_k) as [[distances indices]|]; [|done].
  simpl in Hrun.
  destruct (mapM _ _) as [found|] eqn:Hfound; [|done]. simpl in Hrun.
  injection Hrun as <- <-. split_and!.
  - by eexists.
  - apply length_hits in Hfound. by rewrite length_seq in Hfound.
  - intros doc Hin.
    destruct (elem_of_hits _ _ _ _ Hfound Hin) as (i & _ & Hhit).
    unfold docstore_hit, item, container in Hhit.
    unfold mbind, result_mbind, result_bind in Hhit.
    repeat (case_match; simplify_eq/=; try done).
    case_bool_decide; simplify_eq/=.
    eexists _, _, _, _, _, _. by split_and!.
Qed.

Lemma docstore_hits_run (s : State F) (ids : gmap Z string)
    (ds : gmap string (Document F)) (distances : list F) (indices : list Z) (k : nat) :
  index_to_docstore_id s = Some ids → docstore s = Some ds →
  (k ≤ length distances)%nat → (k ≤ length indices)%nat →
  ∃ found,
    mapM (docstore_hit s distances indices) (seq 0 k) = Ok found
    ∧ page_content <$> omap id found
      = omap (fun z => if bool_decide (z = -1) then None
                       else page_content <$> (ids !! z ≫= fun key => ds !! key))
             (take k indices).
Proof.
  intros Hids Hds. induction k as [|k IH]; intros Hd Hi.
  - exists []. by rewrite take_0.
  - destruct IH as (found & Hfound & Hcontents); [lia..|].
    destruct (lookup_lt_is_Some_2 indices k) as [z Hz]; [lia|].
    destruct (lookup_lt_is_Some_2 distances k) as [sc Hsc]; [lia|].
    rewrite seq_S, (take_S_r _ _ _ Hz), omap_app. simpl.
    assert (∃ hit, docstore_hit s distances indices k = Ok hit
                   ∧ page_content <$> omap id [hit]
                     = omap (fun z => if bool_decide (z = -1) then None
                                      else page_content <$>
                                             (ids !! z ≫= fun key => ds !! key)) [z])
      as (hit & Hhit & Hone).
    { unfold docstore_hit, item, container. rewrite Hz, Hids, Hds, Hsc. simpl.
      csimpl. case_bool_decide; case_bool_decide; try done; simplify_eq.
      - destruct (ids !! z) as [key|]; simpl; [|by eexists].
        destruct (ds !! key) as [doc|]; simpl; by eexists.
      - by eexists. }
    exists (found ++ [hit]). split.
    + by apply mapM_snoc_Ok.
    + by rewrite omap_app, fmap_app, Hcontents, Hone.
Qed.

(** X9. On an instance with both docstore tables, a query of the dimension
    of the instance, and an index that answers with at least [top_k]
    distances and row ids, [_search_with_docstore] returns after that single
    index call. The documents it returns are, in the order of the answer,
    those of the first [top_k] row ids that are not the sentinel -1 and that
    the tables resolve; the other row ids are skipped without an error. *)
Theorem _search_with_docstore_returns (s : State F) (query_embedding : ArrayLike F)
    (q : ndarray F) (d : nat) (idx : FaissIndex F) (top_k : Z)
    (distances : list F) (indices : list Z)
    (ids : gmap Z string) (ds : gmap string (Document F)) :
  shape_query query_embedding = Ok q →
  shape q !! 1%nat = Some d →
  dimension s = Some d →
  index s = Some idx →
  faiss_search idx q top_k = Ok (distances, indices) →
  (Z.to_nat top_k ≤ length distances)%nat →
  (Z.to_nat top_k ≤ length indices)%nat →
  index_to_docstore_id s = Some ids →
  docstore s = Some ds →
  ∃ docs,
    _search_with_docstore s query_embedding top_k = ([IndexSearch q top_k], Ok docs)
    ∧ page_content <$> docs
      = omap (fun z => if bool_decide (z = -1) then None
                       else page_content <$> (ids !! z ≫= fun key => ds !! key))
             (take (Z.to_nat top_k) indices).
Proof.
  intros Hq Hshape Hdim Hidx Hsearch Hd Hi Hids Hds.
  destruct (docstore_hits_run s ids ds distances indices (Z.to_nat top_k)
              Hids Hds Hd Hi) as (found & Hfound & Hcontents).
  exists (omap id found). split; [|done].
  unfold _search_with_docstore, check_dimension, shape_at, index_search.
  rewrite Hq. unfold_run. simpl. rewrite Hshape, Hdim. simpl.
  rewrite bool_decide_eq_true_2 by done. rewrite Hidx. simpl.
  rewrite Hsearch. simpl. by rewrite Hfound.
Qed.

(** X10. After a successful enhanced build the two search helpers resolve a
    position of an index answer alike, as long as the row id there is -1 or
    more: both skip it, or both raise the same exception, or the document of
    the docstore path and the hit of the chunk path have the same content,
    row id and similarity. *)
Theorem hit_modes_agree (docs : list (Document F)) nrm (s s' : State F)
    (distances : list F) (indices : list Z) (j : nat) (z : Z) :
  create_vectorstore docs nrm s = (s', Ok tt) →
  indices !! j = Some z →
  -1 ≤ z →
  match docstore_hit s' distances indices j, chunk_hit s' distances indices j with
  | Ok None, Ok None => True
  | Ok (Some doc), Ok (Some hit) =>
      page_content doc = text hit
      ∧ metadata doc !! "retrieval_index" = Some (VInt (chunk_id hit))
      ∧ metadata doc !! "similarity" = Some (VFloat (similarity hit))
  | Raise e1, Raise e2 => e1 = e2
  | _, _ => False
  end.
Proof.
  intros (Hchunks & Hds & Hids & _)%create_vectorstore_ok Hz Hge.
  unfold docstore_hit, chunk_hit, item, container.
  rewrite Hz, Hchunks, Hds, Hids. simpl.
  case_bool_decide as Hsentinel; [|done]. simpl.
  rewrite ids_build_lookup_Z, enumerate_dict_size, length_fmap.
  rewrite enumerate_dict_lookup_Z, list_lookup_fmap.
  case_decide as Hrange; case_bool_decide; try lia; simpl; try done.
  rewrite docstore_build_lookup_eq.
  destruct (lookup_lt_is_Some_2 docs (Z.to_nat z)) as [doc Hdoc]; [lia|].
  rewrite Hdoc. simpl.
  destruct (distances !! j) as [sc|]; simpl; [|done].
  rewrite decide_True by lia. simpl. split_and!; [done|..].
  - apply lookup_insert_eq.
  - rewrite lookup_insert_ne by done. apply lookup_insert_eq.
Qed.

Lemma chunk_hits_run (s : State F) (chunks : gmap Z string)
    (distances : list F) (indices : list Z) (k : nat) :
  chunks_dict s = Some chunks →
  (∀ z, 0 ≤ z < Z.of_nat (size chunks) → is_Some (chunks !! z)) →
  (k ≤ length distances)%nat → (k ≤ length indices)%nat →
  (∀ z, z ∈ take k indices → -1 ≤ z) →
  ∃ found,
    mapM (chunk_hit s distances indices) (seq 0 k) = Ok found
    ∧ text <$> omap id found
      = omap (fun z => if bool_decide (z = -1 ∨ Z.of_nat (size chunks) ≤ z) then None
                       else chunks !! z)
             (take k indices).
Proof.
  intros Hchunks Hfull. induction k as [|k IH]; intros Hd Hi Hge.
  - exists []. by rewrite take_0.
  - destruct (lookup_lt_is_Some_2 indices k) as [z Hz]; [lia|].
    destruct (lookup_lt_is_Some_2 distances k) as [sc Hsc]; [lia|].
    rewrite (take_S_r _ _ _ Hz) in Hge.
    destruct IH as (found & Hfound & Htexts); [lia..| |].
    { intros z' Hin. apply Hge, elem_of_app. by left. }
    assert (-1 ≤ z) as Hz1.
    { apply Hge, elem_of_app. right. by apply list_elem_of_singleton. }
    rewrite seq_S, (take_S_r _ _ _ Hz), omap_app. simpl.
    assert (∃ hit, chunk_hit s distances indices k = Ok hit
                   ∧ text <$> omap id [hit]
                     = omap (fun z => if bool_decide (z = -1 ∨ Z.of_nat (size chunks) ≤ z)
                                      then None else chunks !! z) [z])
      as (hit & Hhit & Hone).
    { unfold chunk_hit, item, container. rewrite Hz, Hchunks, Hsc. simpl.
      csimpl. repeat case_bool_decide; try lia; try (by eexists).
      destruct (Hfull z) as [txt Htxt]; [lia|]. rewrite Htxt. by eexists. }
    exists (found ++ [hit]). split.
    + by apply mapM_snoc_Ok.
    + by rewrite omap_app, fmap_app, Htexts, Hone.
Qed.

(** X19. On an instance whose chunk table has an entry for every row id
    below its size, a query of the dimension of the instance, and an index
    that answers with at least [top_k] distances and row ids, none below -1,
    [_search_chunks] returns after that single index call. The texts it
    returns are, in the order of the answer, those of the first [top_k] row
    ids that are neither the sentinel -1 nor beyond the table; those are
    skipped without an error. *)
Theorem _search_chunks_returns (s : State F) (query_embedding : ArrayLike F)
    (q : ndarray F) (d : nat) (idx : FaissIndex F) (top_k : Z)
    (distances : list F) (indices : list Z) (chunks : gmap Z string) :
  shape_query query_embedding = Ok q →
  shape q !! 1%nat = Some d →
  dimension s = Some d →
  index s = Some idx →
  faiss_search idx q top_k = Ok (distances, indices) →
  (Z.to_nat top_k ≤ length distances)%nat →
  (Z.to_nat top_k ≤ length indices)%nat →
  (∀ z, z ∈ take (Z.to_nat top_k) indices → -1 ≤ z) →
  chunks_dict s = Some chunks →
  (∀ z, 0 ≤ z < Z.of_nat (size chunks) → is_Some (chunks !! z)) →
  ∃ hits,
    _search_chunks s query_embedding top_k = ([IndexSearch q top_k], Ok hits)
    ∧ text <$> hits
      = omap (fun z => if bool_decide (z = -1 ∨ Z.of_nat (size chunks) ≤ z) then None
                       else chunks !! z)
             (take (Z.to_nat top_k) indices).
Proof.
  intros Hq Hshape Hdim Hidx Hsearch Hd Hi Hge Hchunks Hfull.
  destruct (chunk_hits_run s chunks distances indices (Z.to_nat top_k)
              Hchunks Hfull Hd Hi Hge) as (found & Hfound & Htexts).
  exists (omap id found). split; [|done].
  unfold _search_chunks, check_dimension, shape_at, index_search.
  rewrite Hq. unfold_run. simpl. rewrite Hshape, Hdim. simpl.
  rewrite bool_decide_eq_true_2 by done. rewrite Hidx. simpl.
  rewrite Hsearch. simpl. by rewrite Hfound.
Qed.

(** ** Further properties of saving and loading *)

(** X11. [save_index] touches no file but the two of its prefix: every
    other file name reads as before. Without an index it raises
    [ValueError] and writes nothing at all. *)
Theorem save_index_frame (s : State F) (file_path : string) (fs : gmap string Blob) :
  (∀ name, name ≠ index_file file_path → name ≠ metadata_file file_path →
           (save_index s file_path fs).1 !! name = fs !! name)
  ∧ (index s = None →
     save_index s file_path fs = (fs, Raise (ValueError "No index to save"))).
Proof.
  unfold save_index. split.
  - intros name Hi Hm. destruct (index s); [|done]. simpl.
    by rewrite !lookup_insert_ne.
  - by intros ->.
Qed.

(** X12. Saving an instance and loading the same prefix back into that
    instance, without passing an embedder, gives the instance back
    unchanged. The serialisers are assumed to give back this index and this
    metadata. *)
Theorem save_then_load_same_instance (s : State F) (idx : FaissIndex F)
    (file_path : string) (fs : gmap string Blob) :
  index s = Some idx →
  read_index (write_index idx) = Ok idx →
  pickle_load (pickle_dump (metadata_of s)) = Ok (metadata_of s) →
  load_index file_path None (save_index s file_path fs).1 s = (s, Ok tt).
Proof.
  intros Hidx Hread Hload. unfold save_index, load_index. rewrite Hidx. simpl.
  rewrite lookup_insert_ne by (symmetry; apply index_file_ne_metadata_file).
  rewrite lookup_insert_eq, lookup_insert_eq.
  unfold_method. rewrite Hread, Hload. simpl.
  destruct s; simpl in *. by subst.
Qed.

(** X14. With both files present, a load whose index file cannot be read
    leaves the instance as it was; a load whose index file is read but
    whose metadata cannot be unpickled has already replaced [index] and
    leaves everything else, the old [dimension] and tables included. *)
Theorem load_index_unreadable (file_path : string) em_arg (fs : gmap string Blob)
    (s : State F) (index_blob metadata_blob : Blob) :
  fs !! index_file file_path = Some index_blob →
  fs !! metadata_file file_path = Some metadata_blob →
  (∀ e, read_index index_blob = Raise e →
        load_index file_path em_arg fs s = (s, Raise e))
  ∧ (∀ idx e, read_index index_blob = Ok idx →
              pickle_load metadata_blob = Raise e →
              load_index file_path em_arg fs s = (with_index (Some idx) s, Raise e)).
Proof.
  intros Hi Hm. unfold load_index. rewrite Hi, Hm. unfold_method.
  split; [intros e ->|intros idx e -> ->]; done.
Qed.


(** ** Further properties of the retrieval *)

(** X16. On an instance without embedder, [get_relevant_documents] raises
    [AttributeError] before it calls anything. *)
Theorem get_relevant_documents_without_embedder (s : State F) (query : Query)
    (top_k : Z) :
  embedder_model s = None →
  get_relevant_documents s query top_k
  = ([], Raise (AttributeError "'NoneType' object has no attribute 'batch_embed'")).
Proof.
  intros Hnone. unfold get_relevant_documents, embed. rewrite Hnone. done.
Qed.

Lemma get_relevant_documents_trace (s : State F) (query : Query) (top_k : Z) :
  trace (get_relevant_documents s query top_k) = trace (embed s query).
Proof.
  unfold get_relevant_documents.
  destruct (embed s query) as [t [qe|e]]; unfold trace; unfold_run; simpl; [|done].
  rewrite initial_search_raises. simpl. apply app_nil_r.
Qed.

(** X17. A run of [get_relevant_documents] calls the embedder at most once
    and nothing else: neither the index search nor the reranker is ever
    reached. *)
Theorem get_relevant_documents_calls (s : State F) (query : Query) (top_k : Z) :
  let calls := trace (get_relevant_documents s query top_k) in
  (length calls ≤ 1)%nat
  ∧ ∀ call, call ∈ calls →
      (∃ q, call = EmbedQuery q) ∨ (∃ texts, call = BatchEmbed texts).
Proof.
  intros calls. subst calls. rewrite get_relevant_documents_trace.
  unfold embed, trace. unfold_run.
  destruct (embedder_model s) as [em|]; simpl; [|split; [lia|by intros ? ?%elem_of_nil]].
  destruct query as [q|qs]; simpl.
  - destruct (embed_query em) as [embed_one|]; simpl.
    + destruct (embed_one q); simpl; (split; [lia|]);
        intros call ->%list_elem_of_singleton; eauto.
    + destruct (batch_embed em [q]) as [out|]; simpl.
      * repeat (case_match; simplify_eq/=); (split; [simpl; lia|]);
          intros call ->%list_elem_of_singleton; eauto.
      * split; [lia|]. intros call ->%list_elem_of_singleton; eauto.
  - destruct (batch_embed em qs); simpl; (split; [lia|]);
      intros call ->%list_elem_of_singleton; eauto.
Qed.

(** X18. For a query string [q] on an instance with an embedder, the one
    call [get_relevant_documents] makes is [embed_query(q)] when the embedder
    has that method, and [batch_embed([q])] otherwise; a query that is not a
    string is handed to [batch_embed] as it is. *)
Theorem get_relevant_documents_embedding_call (s : State F) (em : Embedder F)
    (query : Query) (top_k : Z) :
  embedder_model s = Some em →
  trace (get_relevant_documents s query top_k)
  = match query with
    | QStr q =>
        match embed_query em with
        | Some _ => [EmbedQuery q]
        | None => [BatchEmbed [q]]
        end
    | QTexts qs => [BatchEmbed qs]
    end.
Proof.
  intros Hem. rewrite get_relevant_documents_trace.
  unfold embed, trace. rewrite Hem. unfold_run.
  destruct query as [q|qs]; simpl.
  - destruct (embed_query em) as [embed_one|]; simpl.
    + by destruct (embed_one q).
    + destruct (batch_embed em [q]) as [out|]; simpl; [|done].
      by repeat (case_match; simplify_eq/=).
  - by destruct (batch_embed em qs).
Qed.

End Properties.

(** * The properties on the concrete instance *)

Import Examples.
#[local] Existing Instance Examples.externals.

(** The chunk-mode store of the three pets, queried for "cat". *)
Lemma get_relevant_documents_type_error_witness :
  embed chunk_store (QStr "cat") = ([BatchEmbed ["cat"]], Ok (embed_text "cat"))
  ∧ get_relevant_documents chunk_store (QStr "cat") 2
    = ([BatchEmbed ["cat"]],
       Raise (TypeError "_search_chunks() got an unexpected keyword argument 'initial_k'")).
Proof.
  assert (embed chunk_store (QStr "cat") = ([BatchEmbed ["cat"]], Ok (embed_text "cat")))
    as Hembed by reflexivity.
  split; [exact Hembed|].
  exact (proj1 (get_relevant_documents_type_error chunk_store "cat" 2 _ _ Hembed)).
Defined.

(** C2. [enhanced_store] resolves row 0 through its docstore. After
    [save_index("kb")] and [load_index("kb")] into a fresh instance,
    [dimension], [total_vectors] and [index_type] are those of the saved
    instance, but [docstore] and [index_to_docstore_id] are [None], although
    the metadata file holds both: the same hit is no longer resolved. *)
Example load_drops_enhanced_docstore :
  (∃ found, docstore_hit enhanced_store [9] [0] 0 = Ok (Some found)
            ∧ page_content found = "alpha")
  ∧ (∃ md, unpickle <$> saved_enhanced !! metadata_file "kb" = Some (Ok md)
           ∧ md_docstore md = docstore enhanced_store
           ∧ md_index_to_docstore_id md = index_to_docstore_id enhanced_store)
  ∧ load_index "kb" None saved_enhanced (init None) = (reloaded_store, Ok tt)
  ∧ dimension reloaded_store = dimension enhanced_store
  ∧ total_vectors reloaded_store = total_vectors enhanced_store
  ∧ index_type reloaded_store = index_type enhanced_store
  ∧ docstore reloaded_store = None
  ∧ index_to_docstore_id reloaded_store = None
  ∧ docstore_hit reloaded_store [9] [0] 0 = Raise (TypeError "argument of type 'NoneType'").
Proof.
  split_and!; try (vm_compute; reflexivity).
  - eexists. split; vm_compute; reflexivity.
  - eexists. split_and!; vm_compute; reflexivity.
Qed.

(** The chunk-mode store saved as "pets" and loaded into a fresh instance. *)
Lemma save_load_search_roundtrip_witness :
  let idx := {| idx_d := 2; ntotal := 3; xb := [3; 1; 5; 1; 4; 1] |} in
  index chunk_store = Some idx
  ∧ read_index (write_index idx) = Ok idx
  ∧ pickle_load (pickle_dump (metadata_of chunk_store)) = Ok (metadata_of chunk_store)
  ∧ ∃ fs' s1,
      save_index chunk_store "pets" ∅ = (fs', Ok tt)
      ∧ load_index "pets" None fs' (init None) = (s1, Ok tt)
      ∧ (∀ q k, index_search s1 q k = index_search chunk_store q k)
      ∧ (∀ query_embedding k,
           _search_chunks s1 query_embedding k
           = _search_chunks chunk_store query_embedding k)
      ∧ (docstore (init (F:=Z) None) = docstore chunk_store →
         index_to_docstore_id (init (F:=Z) None) = index_to_docstore_id chunk_store →
         ∀ query_embedding k,
           _search_with_docstore s1 query_embedding k
           = _search_with_docstore chunk_store query_embedding k).
Proof.
  intros idx.
  assert (index chunk_store = Some idx) as Hidx by reflexivity.
  split_and!; [exact Hidx|reflexivity|reflexivity|].
  exact (save_load_search_roundtrip chunk_store (init None) idx "pets" None ∅
           Hidx eq_refl eq_refl).
Defined.



(** C5. [rebuilt_store] is an enhanced build of two documents followed by a
    chunk-mode build of the one document "gamma"; [overloaded_store] is the
    same enhanced build followed by the load of that one-vector store. Both
    hold one vector, yet both still resolve row 1 through the docstore of
    the enhanced build, resolve row 0 to the old document "alpha" and not to
    "gamma", and a retrieval on either takes the docstore path. *)
Example stale_docstore_after_rebuild_or_load :
  total_vectors rebuilt_store = 1%nat
  ∧ (∃ found, docstore_hit rebuilt_store [9] [1] 0 = Ok (Some found)
              ∧ page_content found = "be")
  ∧ (∃ found, docstore_hit rebuilt_store [9] [0] 0 = Ok (Some found)
              ∧ page_content found = "alpha")
  ∧ initial_search_call rebuilt_store = call_search_with_docstore
  ∧ load_index "small" None saved_small enhanced_store = (overloaded_store, Ok tt)
  ∧ total_vectors overloaded_store = 1%nat
  ∧ (∃ found, docstore_hit overloaded_store [9] [1] 0 = Ok (Some found)
              ∧ page_content found = "be")
  ∧ (∃ found, docstore_hit overloaded_store [9] [0] 0 = Ok (Some found)
              ∧ page_content found = "alpha")
  ∧ initial_search_call overloaded_store = call_search_with_docstore.
Proof.
  split_and!; try (vm_compute; reflexivity).
  all: eexists; split; vm_compute; reflexivity.
Qed.

(** C6 fails on two inputs. A chunk-mode build that is given an embedder
    whose [batch_embed] raises leaves that embedder in the instance. An
    enhanced build whose embedder answers with a three-dimensional array
    raises in [index.add], after [dimension] and [index] were assigned. *)
Lemma failed_ingestion_mutates_instance :
  (let s := init None in
   let r := create_vector_store pets (Some failing_embedder) s in
   r.2 = Raise (OtherError "embedding service unavailable")
   ∧ embedder_model s = None
   ∧ embedder_model r.1 = Some failing_embedder
   ∧ r.1 ≠ s)
  ∧ (let s := init (Some cubic_embedder) in
     let r := create_vectorstore library false s in
     r.2 = Raise (ValueError "too many values to unpack (expected 2)")
     ∧ dimension s = None ∧ index s = None
     ∧ dimension r.1 = Some 1%nat ∧ index r.1 = Some (IndexFlatIP 1)
     ∧ r.1 ≠ s).
Proof.
  split; intros s r; split_and!; try reflexivity.
  - intros Heq. apply (f_equal embedder_model) in Heq. discriminate Heq.
  - intros Heq. apply (f_equal dimension) in Heq. discriminate Heq.
Qed.

(** A chunk-mode build on a fresh instance with the embedder that is down. *)
Lemma failed_ingestion_state_witness :
  let s := init None in
  let s' := with_embedder_model (Some failing_embedder) s in
  let e := OtherError "embedding service unavailable" in
  let reshaped (arr : ndarray Z) :=
    if bool_decide (ndim arr = 1%nat) then reshape_row arr else arr in
  ingest (ChunkBuild (Some failing_embedder)) pets s = (s', Raise e)
  ∧ chunks_dict s' = chunks_dict s
  ∧ docstore s' = docstore s
  ∧ index_to_docstore_id s' = index_to_docstore_id s
  ∧ documents s' = documents s
  ∧ total_vectors s' = total_vectors s
  ∧ embedder_model s' = Some failing_embedder
  ∧ ((∃ em out arr d,
        Some failing_embedder = Some em
        ∧ batch_embed em (page_content <$> pets) = Ok out
        ∧ np_array out = Ok arr
        ∧ shape_at (reshaped arr) 1 = Ok d
        ∧ faiss_add (IndexFlatIP d) (reshaped arr) = Raise e
        ∧ index s' = Some (IndexFlatIP d) ∧ dimension s' = Some d)
     ∨ (index s' = index s ∧ dimension s' = dimension s
        ∧ (Some failing_embedder = None
           ∨ ∃ em, Some failing_embedder = Some em
                   ∧ (batch_embed em (page_content <$> pets) = Raise e
                      ∨ ∃ out, batch_embed em (page_content <$> pets) = Ok out
                               ∧ (np_array out = Raise e
                                  ∨ ∃ arr, np_array out = Ok arr
                                           ∧ shape_at (reshaped arr) 1 = Raise e))))).
Proof.
  intros s s' e reshaped.
  assert (ingest (ChunkBuild (Some failing_embedder)) pets s = (s', Raise e)) as Hrun
    by reflexivity.
  split; [exact Hrun|].
  exact (failed_ingestion_state _ pets s s' e Hrun).
Defined.

(** A disk that holds the index file of "kb" and no metadata file. *)
Lemma load_index_missing_artifact_witness :
  let fs : gmap string File := {[index_file "kb" := IndexFile (IndexFlatIP 2)]} in
  (fs !! index_file "kb" = None ∨ fs !! metadata_file "kb" = None)
  ∧ ∃ kind missing,
      load_index "kb" None fs (init None)
        = (init None, Raise (FileNotFoundError (kind +:+ missing +:+ " not found")))
      ∧ (missing = index_file "kb" ∨ missing = metadata_file "kb")
      ∧ fs !! missing = None
      ∧ (is_Some (fs !! index_file "kb") → missing = metadata_file "kb").
Proof.
  intros fs.
  assert (fs !! index_file "kb" = None ∨ fs !! metadata_file "kb" = None) as Habsent
    by (right; reflexivity).
  split; [exact Habsent|].
  exact (load_index_missing_artifact "kb" None fs (init None) Habsent).
Defined.

(** An index of dimension 384 queried with a vector of 256 scalars. *)
Lemma search_dimension_mismatch_witness :
  let q := {| shape := [1; 256]%nat; data := replicate 256 0 |} in
  shape_query (zeros 256) = Ok q
  ∧ shape q !! 1%nat = Some 256%nat
  ∧ dimension wide_store = Some 384%nat
  ∧ 256%nat ≠ 384%nat
  ∧ _search_chunks wide_store (zeros 256) 5
    = ([], Raise (ValueError
         "Query embedding dimension 256 doesn't match index dimension 384"))
  ∧ _search_with_docstore wide_store (zeros 256) 5
    = ([], Raise (ValueError
         "Query embedding dimension 256 doesn't match index dimension 384")).
Proof.
  intros q.
  assert (shape_query (zeros 256) = Ok q) as Hq by (vm_compute; reflexivity).
  assert (256%nat ≠ 384%nat) as Hne by lia.
  split_and!; [exact Hq|reflexivity|reflexivity|exact Hne|..].
  - exact (proj1 (search_dimension_mismatch wide_store (zeros 256) q 256 384 5
                    Hq eq_refl eq_refl Hne)).
  - exact (proj2 (search_dimension_mismatch wide_store (zeros 256) q 256 384 5
                    Hq eq_refl eq_refl Hne)).
Defined.

(** C9. On the chunk-mode store of the three pets and on the enhanced store,
    a retrieval with [top_k = 2] raises [TypeError] at its initial search: no
    list is returned, nothing is reranked, tagged or truncated. *)
Example retrieval_returns_no_list :
  get_relevant_documents chunk_store (QStr "feline pet") 2
    = ([BatchEmbed ["feline pet"]],
       Raise (TypeError "_search_chunks() got an unexpected keyword argument 'initial_k'"))
  ∧ get_relevant_documents enhanced_store (QStr "feline pet") 2
    = ([BatchEmbed ["feline pet"]],
       Raise (TypeError
         "_search_with_docstore() got an unexpected keyword argument 'initial_k'")).
Proof. split; vm_compute; reflexivity. Qed.

(** Row 1 of the enhanced build of the two-document library. *)
Lemma row_id_stability_witness :
  let s := init (Some embedder) in
  let d := tagged_doc "be" "b.txt" in
  ingest (EnhancedBuild true) library s = (enhanced_store, Ok tt)
  ∧ library !! 1%nat = Some d
  ∧ [0; 1] !! 1%nat = Some (Z.of_nat 1)
  ∧ [7; 5] !! 1%nat = Some 5
  ∧ chunk_hit enhanced_store [7; 5] [0; 1] 1
    = Ok (Some {| chunk_id := 1; text := "be"; distance := 5; similarity := 5 |})
  ∧ ∃ found, docstore_hit enhanced_store [7; 5] [0; 1] 1 = Ok (Some found)
             ∧ page_content found = "be".
Proof.
  intros s d.
  assert (ingest (EnhancedBuild true) library s = (enhanced_store, Ok tt)) as Hbuild
    by (vm_compute; reflexivity).
  pose proof (row_id_stability (EnhancedBuild true) library s enhanced_store
                1 d [7; 5] [0; 1] 1 5 Hbuild eq_refl eq_refl eq_refl) as [Hchunk Hdoc].
  split_and!; [exact Hbuild|reflexivity|reflexivity|reflexivity|exact Hchunk|].
  exact (Hdoc true eq_refl).
Defined.

(** * Further properties on the concrete instance *)

(** An enhanced build on a fresh instance without embedder. *)
Lemma ingest_without_embedder_witness :
  embedder_model (init (F:=Z) None) = None
  ∧ (∀ em, EnhancedBuild true ≠ ChunkBuild (F:=Z) (Some em))
  ∧ ∃ msg, ingest (EnhancedBuild true) library (init None)
           = (init None, Raise (ValueError msg)).
Proof.
  assert (∀ em, EnhancedBuild true ≠ ChunkBuild (F:=Z) (Some em)) as Hop by done.
  split_and!; [reflexivity|exact Hop|].
  exact (ingest_without_embedder (EnhancedBuild true) library (init None) eq_refl Hop).
Defined.

(** The chunk-mode build of the three pets: three rows of length 2. *)
Lemma ingest_two_dimensional_witness :
  let s := init (Some embedder) in
  let a := {| shape := [3; 2]%nat; data := [3; 1; 5; 1; 4; 1] |} in
  embedder_model s = Some embedder
  ∧ batch_embed embedder (page_content <$> pets) = Ok (AList (embed_text <$> ["cat"; "doggy"; "cars"]))
  ∧ np_array (AList (embed_text <$> ["cat"; "doggy"; "cars"])) = Ok a
  ∧ shape a = [3; 2]%nat
  ∧ ∃ s', ingest (ChunkBuild None) pets s = (s', Ok tt)
          ∧ dimension s' = Some 2%nat
          ∧ total_vectors s' = 3%nat
          ∧ index s' = Some {| idx_d := 2; ntotal := 3; xb := data a |}.
Proof.
  intros s a. split_and!; [reflexivity..|].
  exact (ingest_two_dimensional (ChunkBuild None) pets s embedder _ a 3 2
           eq_refl eq_refl eq_refl eq_refl).
Defined.

(** A chunk-mode build of the three pets with the embedder that answers
    with one flat vector of three scalars. *)
Lemma ingest_one_dimensional_witness :
  let a := {| shape := [3]%nat; data := [3; 1; 4] |} in
  batch_embed flat_embedder (page_content <$> pets) = Ok (AList [ANum 3; ANum 1; ANum 4])
  ∧ np_array (AList [ANum 3; ANum 1; ANum 4]) = Ok a
  ∧ shape a = [3]%nat
  ∧ ∃ s' chunks,
      ingest (ChunkBuild (Some flat_embedder)) pets (init None) = (s', Ok tt)
      ∧ dimension s' = Some 3%nat
      ∧ total_vectors s' = 1%nat
      ∧ chunks_dict s' = Some chunks
      ∧ size chunks = length pets.
Proof.
  intros a. split_and!; [reflexivity..|].
  exact (ingest_one_dimensional (ChunkBuild (Some flat_embedder)) pets (init None)
           flat_embedder _ a 3 eq_refl eq_refl eq_refl eq_refl).
Defined.

(** The chunk table of the chunk-mode store of the three pets. *)
Lemma chunk_table_domain_witness :
  ingest (ChunkBuild None) pets (init (Some embedder)) = (chunk_store, Ok tt)
  ∧ ∃ chunks, chunks_dict chunk_store = Some chunks
              ∧ size chunks = length pets
              ∧ ∀ z : Z, is_Some (chunks !! z) ↔ 0 ≤ z < Z.of_nat (length pets).
Proof.
  assert (ingest (ChunkBuild None) pets (init (Some embedder)) = (chunk_store, Ok tt))
    as Hbuild by (vm_compute; reflexivity).
  split; [exact Hbuild|].
  exact (chunk_table_domain _ pets _ chunk_store Hbuild).
Defined.

(** The tables of the enhanced build of the two-document library. *)
Lemma enhanced_tables_agree_witness :
  create_vectorstore library true (init (Some embedder)) = (enhanced_store, Ok tt)
  ∧ ∃ ids ds chunks,
      index_to_docstore_id enhanced_store = Some ids
      ∧ docstore enhanced_store = Some ds
      ∧ chunks_dict enhanced_store = Some chunks
      ∧ documents enhanced_store = Some library
      ∧ ∀ z : Z,
          (ids !! z ≫= fun key => ds !! key)
          = (if decide (0 ≤ z) then library !! Z.to_nat z else None)
          ∧ chunks !! z = page_content <$> (ids !! z ≫= fun key => ds !! key).
Proof.
  assert (create_vectorstore library true (init (Some embedder)) = (enhanced_store, Ok tt))
    as Hbuild by (vm_compute; reflexivity).
  split; [exact Hbuild|].
  exact (enhanced_tables_agree library true _ enhanced_store Hbuild).
Defined.

(** The enhanced build of the library: two documents, two rows. *)
Lemma enhanced_rows_are_total_vectors_witness :
  let s := init (Some embedder) in
  let a := {| shape := [2; 2]%nat; data := [5; 1; 2; 1] |} in
  embedder_model s = Some embedder
  ∧ batch_embed embedder (page_content <$> library) = Ok (AList (embed_text <$> ["alpha"; "be"]))
  ∧ np_array (AList (embed_text <$> ["alpha"; "be"])) = Ok a
  ∧ shape a = [length library; 2%nat]
  ∧ ∃ s' ids ds,
      create_vectorstore library true s = (s', Ok tt)
      ∧ index_to_docstore_id s' = Some ids ∧ docstore s' = Some ds
      ∧ ∀ z : Z, is_Some (ids !! z ≫= fun key => ds !! key)
                 ↔ 0 ≤ z < Z.of_nat (total_vectors s').
Proof.
  intros s a. split_and!; [reflexivity..|].
  exact (enhanced_rows_are_total_vectors library true s embedder _ a 2
           eq_refl eq_refl eq_refl eq_refl).
Defined.

(** The two best hits for "cat" in the chunk-mode store of the three pets. *)
Lemma _search_chunks_hits_witness :
  let calls := [IndexSearch {| shape := [1; 2]%nat; data := [3; 1] |} 2] in
  let hits := [ {| chunk_id := 1; text := "doggy"; distance := 16; similarity := 16 |};
                {| chunk_id := 2; text := "cars"; distance := 13; similarity := 13 |} ] in
  _search_chunks chunk_store (embed_text "cat") 2 = (calls, Ok hits)
  ∧ (∃ q, calls = [IndexSearch q 2])
  ∧ (length hits ≤ Z.to_nat 2)%nat
  ∧ ∀ hit, hit ∈ hits →
      chunk_id hit ≠ -1
      ∧ similarity hit = distance hit
      ∧ ∃ chunks, chunks_dict chunk_store = Some chunks
                  ∧ chunk_id hit < Z.of_nat (size chunks)
                  ∧ chunks !! chunk_id hit = Some (text hit).
Proof.
  intros calls hits.
  assert (_search_chunks chunk_store (embed_text "cat") 2 = (calls, Ok hits)) as Hrun
    by (vm_compute; reflexivity).
  split; [exact Hrun|].
  exact (_search_chunks_hits chunk_store (embed_text "cat") 2 calls hits Hrun).
Defined.

(** The best hit for "cat" in the enhanced store. *)
Lemma _search_with_docstore_hits_witness :
  let calls := [IndexSearch {| shape := [1; 2]%nat; data := [3; 1] |} 1] in
  let docs :=
    [ {| page_content := "alpha";
         metadata := <["retrieval_index" := VInt 0]>
                       (<["similarity" := VFloat 16]> {["source" := VStr "a.txt"]}) |} ] in
  _search_with_docstore enhanced_store (embed_text "cat") 1 = (calls, Ok docs)
  ∧ (∃ q, calls = [IndexSearch q 1])
  ∧ (length docs ≤ Z.to_nat 1)%nat
  ∧ ∀ doc, doc ∈ docs →
      ∃ row key stored score ids ds,
        row ≠ -1
        ∧ index_to_docstore_id enhanced_store = Some ids
        ∧ docstore enhanced_store = Some ds
        ∧ ids !! row = Some key ∧ ds !! key = Some stored
        ∧ page_content doc = page_content stored
        ∧ metadata doc
          = <["retrieval_index" := VInt row]>
              (<["similarity" := VFloat score]> (metadata stored)).
Proof.
  intros calls docs.
  assert (_search_with_docstore enhanced_store (embed_text "cat") 1 = (calls, Ok docs))
    as Hrun by (vm_compute; reflexivity).
  split; [exact Hrun|].
  exact (_search_with_docstore_hits enhanced_store (embed_text "cat") 1 calls docs Hrun).
Defined.

(** Five candidates asked of the enhanced store, which holds two rows. *)
Lemma _search_with_docstore_returns_witness :
  let q := {| shape := [1; 2]%nat; data := [3; 1] |} in
  let idx := {| idx_d := 2; ntotal := 2; xb := [5; 1; 2; 1] |} in
  let distances := [16; 7; 0; 0; 0] in
  let indices := [0; 1; -1; -1; -1] in
  shape_query (embed_text "cat") = Ok q
  ∧ shape q !! 1%nat = Some 2%nat
  ∧ dimension enhanced_store = Some 2%nat
  ∧ index enhanced_store = Some idx
  ∧ faiss_search idx q 5 = Ok (distances, indices)
  ∧ (Z.to_nat 5 ≤ length distances)%nat
  ∧ (Z.to_nat 5 ≤ length indices)%nat
  ∧ ∃ ids ds docs,
      index_to_docstore_id enhanced_store = Some ids
      ∧ docstore enhanced_store = Some ds
      ∧ _search_with_docstore enhanced_store (embed_text "cat") 5
        = ([IndexSearch q 5], Ok docs)
      ∧ page_content <$> docs
        = omap (fun z => if bool_decide (z = -1) then None
                         else page_content <$> (ids !! z ≫= fun key => ds !! key))
               (take (Z.to_nat 5) indices).
Proof.
  intros q idx distances indices.
  assert (shape_query (embed_text "cat") = Ok q) as Hq by reflexivity.
  assert (index enhanced_store = Some idx) as Hidx by (vm_compute; reflexivity).
  assert (faiss_search idx q 5 = Ok (distances, indices)) as Hsearch
    by (vm_compute; reflexivity).
  assert (Z.to_nat 5 ≤ length distances)%nat as Hd by (vm_compute; lia).
  assert (Z.to_nat 5 ≤ length indices)%nat as Hi by (vm_compute; lia).
  split_and!; [exact Hq|reflexivity|reflexivity|exact Hidx|exact Hsearch
               |exact Hd|exact Hi|].
  destruct (index_to_docstore_id enhanced_store) as [ids|] eqn:Hids; [|discriminate Hids].
  destruct (docstore enhanced_store) as [ds|] eqn:Hds; [|discriminate Hds].
  destruct (_search_with_docstore_returns enhanced_store (embed_text "cat") q 2 idx 5
              distances indices ids ds Hq eq_refl eq_refl Hidx Hsearch Hd Hi Hids Hds)
    as (docs & Hrun & Hcontents).
  exists ids, ds, docs. split_and!; [reflexivity|reflexivity|exact Hrun|exact Hcontents].
Defined.

(** Row 1 of an index answer, on the enhanced store. *)
Lemma hit_modes_agree_witness :
  create_vectorstore library true (init (Some embedder)) = (enhanced_store, Ok tt)
  ∧ [0; 1] !! 1%nat = Some 1
  ∧ -1 ≤ 1
  ∧ match docstore_hit enhanced_store [16; 7] [0; 1] 1,
          chunk_hit enhanced_store [16; 7] [0; 1] 1 with
    | Ok None, Ok None => True
    | Ok (Some doc), Ok (Some hit) =>
        page_content doc = text hit
        ∧ metadata doc !! "retrieval_index" = Some (VInt (chunk_id hit))
        ∧ metadata doc !! "similarity" = Some (VFloat (similarity hit))
    | Raise e1, Raise e2 => e1 = e2
    | _, _ => False
    end.
Proof.
  assert (create_vectorstore library true (init (Some embedder)) = (enhanced_store, Ok tt))
    as Hbuild by (vm_compute; reflexivity).
  assert (-1 ≤ 1) as Hge by lia.
  split_and!; [exact Hbuild|reflexivity|exact Hge|].
  exact (hit_modes_agree library true _ enhanced_store [16; 7] [0; 1] 1 1
           Hbuild eq_refl Hge).
Defined.

(** Five candidates asked of the chunk-mode store, which holds three rows. *)
Lemma _search_chunks_returns_witness :
  let q := {| shape := [1; 2]%nat; data := [3; 1] |} in
  let idx := {| idx_d := 2; ntotal := 3; xb := [3; 1; 5; 1; 4; 1] |} in
  let distances := [16; 13; 10; 0; 0] in
  let indices := [1; 2; 0; -1; -1] in
  let chunks := enumerate_dict ["cat"; "doggy"; "cars"] in
  shape_query (embed_text "cat") = Ok q
  ∧ shape q !! 1%nat = Some 2%nat
  ∧ dimension chunk_store = Some 2%nat
  ∧ index chunk_store = Some idx
  ∧ faiss_search idx q 5 = Ok (distances, indices)
  ∧ (Z.to_nat 5 ≤ length distances)%nat
  ∧ (Z.to_nat 5 ≤ length indices)%nat
  ∧ (∀ z, z ∈ take (Z.to_nat 5) indices → -1 ≤ z)
  ∧ chunks_dict chunk_store = Some chunks
  ∧ (∀ z, 0 ≤ z < Z.of_nat (size chunks) → is_Some (chunks !! z))
  ∧ ∃ hits,
      _search_chunks chunk_store (embed_text "cat") 5 = ([IndexSearch q 5], Ok hits)
      ∧ text <$> hits
        = omap (fun z => if bool_decide (z = -1 ∨ Z.of_nat (size chunks) ≤ z) then None
                         else chunks !! z)
               (take (Z.to_nat 5) indices).
Proof.
  intros q idx distances indices chunks.
  assert (shape_query (embed_text "cat") = Ok q) as Hq by reflexivity.
  assert (index chunk_store = Some idx) as Hidx by reflexivity.
  assert (faiss_search idx q 5 = Ok (distances, indices)) as Hsearch
    by (vm_compute; reflexivity).
  assert (Z.to_nat 5 ≤ length distances)%nat as Hd by (vm_compute; lia).
  assert (Z.to_nat 5 ≤ length indices)%nat as Hi by (vm_compute; lia).
  assert (∀ z, z ∈ take (Z.to_nat 5) indices → -1 ≤ z) as Hge.
  { intros z Hin. change (take (Z.to_nat 5) indices) with indices in Hin.
    unfold indices in Hin.
    repeat (apply elem_of_cons in Hin as [->|Hin]; [lia|]).
    by apply elem_of_nil in Hin. }
  assert (chunks_dict chunk_store = Some chunks) as Hchunks by reflexivity.
  assert (∀ z, 0 ≤ z < Z.of_nat (size chunks) → is_Some (chunks !! z)) as Hfull.
  { intros z. unfold chunks. rewrite enumerate_dict_size, enumerate_dict_lookup_Z.
    intros Hz. rewrite decide_True by lia. apply lookup_lt_is_Some. lia. }
  split_and!; [exact Hq|reflexivity|reflexivity|exact Hidx|exact Hsearch
               |exact Hd|exact Hi|exact Hge|exact Hchunks|exact Hfull|].
  exact (_search_chunks_returns chunk_store (embed_text "cat") q 2 idx 5
           distances indices chunks Hq eq_refl eq_refl Hidx Hsearch Hd Hi Hge
           Hchunks Hfull).
Defined.

(** The chunk-mode store saved as "pets" and loaded back into itself. *)
Lemma save_then_load_same_instance_witness :
  let idx := {| idx_d := 2; ntotal := 3; xb := [3; 1; 5; 1; 4; 1] |} in
  index chunk_store = Some idx
  ∧ read_index (write_index idx) = Ok idx
  ∧ pickle_load (pickle_dump (metadata_of chunk_store)) = Ok (metadata_of chunk_store)
  ∧ load_index "pets" None (save_index chunk_store "pets" ∅).1 chunk_store
    = (chunk_store, Ok tt).
Proof.
  intros idx.
  assert (index chunk_store = Some idx) as Hidx by reflexivity.
  split_and!; [exact Hidx|reflexivity|reflexivity|].
  exact (save_then_load_same_instance chunk_store idx "pets" ∅ Hidx eq_refl eq_refl).
Defined.

(** A load of "kb" from the disk whose metadata file is not a pickle. *)
Lemma load_index_unreadable_witness :
  let idx := {| idx_d := 2; ntotal := 2; xb := [5; 1; 2; 1] |} in
  broken_disk !! index_file "kb" = Some (IndexFile idx)
  ∧ broken_disk !! metadata_file "kb" = Some (IndexFile (IndexFlatIP 2))
  ∧ read_index (IndexFile idx) = Ok idx
  ∧ pickle_load (IndexFile (IndexFlatIP 2)) = Raise (OtherError "could not unpickle")
  ∧ load_index "kb" None broken_disk (init None)
    = (with_index (Some idx) (init None), Raise (OtherError "could not unpickle")).
Proof.
  intros idx.
  assert (broken_disk !! index_file "kb" = Some (IndexFile idx)) as Hi
    by (vm_compute; reflexivity).
  assert (broken_disk !! metadata_file "kb" = Some (IndexFile (IndexFlatIP 2))) as Hm
    by (vm_compute; reflexivity).
  split_and!; [exact Hi|exact Hm|reflexivity|reflexivity|].
  exact (proj2 (load_index_unreadable "kb" None broken_disk (init None) _ _ Hi Hm)
           idx _ eq_refl eq_refl).
Defined.

(** A retrieval on the instance loaded without embedder. *)
Lemma get_relevant_documents_without_embedder_witness :
  embedder_model reloaded_store = None
  ∧ get_relevant_documents reloaded_store (QStr "cat") 2
    = ([], Raise (AttributeError "'NoneType' object has no attribute 'batch_embed'")).
Proof.
  assert (embedder_model reloaded_store = None) as Hnone by (vm_compute; reflexivity).
  split; [exact Hnone|].
  exact (get_relevant_documents_without_embedder reloaded_store (QStr "cat") 2 Hnone).
Defined.

(** A retrieval with an embedder that has [embed_query]. *)
Lemma get_relevant_documents_embedding_call_witness :
  let s := with_embedder_model (Some query_embedder) chunk_store in
  embedder_model s = Some query_embedder
  ∧ trace (get_relevant_documents s (QStr "cat") 2) = [EmbedQuery "cat"].
Proof.
  intros s. split; [reflexivity|].
  exact (get_relevant_documents_embedding_call s query_embedder (QStr "cat") 2 eq_refl).
Defined.

(** Three reranked documents, one without metadata, cut to two. *)
Lemma tag_and_truncate_witness :
  let docs := [tagged_doc "alpha" "a.txt"; doc "gamma"; tagged_doc "be" "b.txt"] in
  0 ≤ 2
  ∧ Z.of_nat (length (py_slice_to (tag_reranked <$> docs) 2)) ≤ 2
  ∧ ∀ d, d ∈ py_slice_to (tag_reranked <$> docs) 2 → metadata d ≠ ∅ →
         metadata d !! "reranked" = Some (VBool true).
Proof.
  intros docs. assert (0 ≤ 2) as Hk by lia.
  split; [exact Hk|]. exact (tag_and_truncate docs 2 Hk).
Defined.
